(** * LibraryManager: installation, update and consistency of H5P libraries

    A shallow embedding of [src/LibraryManager.ts].  The manager is written
    against the storage port [ILibraryStorage]; every method of the class is
    an [async] function, which is modelled as a computation over the storage
    state that ends in a settled promise. *)

From Stdlib Require Import ZArith Ascii String List Lia.
From stdpp Require Import base option list sorting gmap strings pretty.

Local Open Scope string_scope.
Local Open Scope Z_scope.

(** ** Data model (the interfaces of [types.ts] that the manager reads) *)

Record ILibraryName := mkLibraryName {
  machineName : string;
  majorVersion : Z;
  minorVersion : Z
}.

(** [IFullLibraryName extends ILibraryName] *)
Record IFullLibraryName := mkFullLibraryName {
  full_name :> ILibraryName;
  patchVersion : Z
}.

Record IPath := mkPath { path : string }.

(** [ILibraryMetadata extends IFullLibraryName]; only the fields the manager
    interprets are kept, [preloadedJs] and [preloadedCss] are optional. *)
Record ILibraryMetadata := mkMetadata {
  meta_name :> IFullLibraryName;
  title : string;
  runnable : bool;
  preloadedJs : option (list IPath);
  preloadedCss : option (list IPath)
}.

(** [IInstalledLibrary extends ILibraryMetadata] *)
Record IInstalledLibrary := mkInstalled {
  installed_meta :> ILibraryMetadata;
  restricted : bool
}.

(** [ILibraryInstallResult]: [type] is ['new'], ['patch'] or ['none']. *)
Inductive ILibraryInstallResult :=
| ResultNew (newVersion : IFullLibraryName)
| ResultPatch (newVersion oldVersion : IFullLibraryName)
| ResultNone.

(** ** Thrown values *)

Inductive Replacement :=
| RText (s : string)
| RList (l : list string).

(** [H5pError(errorId, replacements)] is the error class of the repository;
    every other thrown value (fs errors, [SyntaxError], [TypeError], whatever
    a storage rejects with) is a [NativeError]. *)
Inductive Thrown :=
| H5pError (errorId : string) (replacements : list (string * Replacement))
| NativeError (name message : string).

(** [error.message].  The class [H5pError] is not among the sources; its
    message is taken to be its id. *)
Definition message (e : Thrown) : string :=
  match e with
  | H5pError errorId _ => errorId
  | NativeError _ m => m
  end.

(** ** Promises and calls

    [Promise A] is a settled promise, i.e. what [await] observes.
    [Completion A] is what invoking a promise-returning function gives: the
    function either hands back a promise or throws synchronously.  The
    difference matters for a [try { return f(); }] without [await]: only the
    synchronous throw reaches the [catch].

    Calls are taken in the order in which they are made, and a call on the
    storage has had its effect when it hands back its promise; the
    interleaving of storage operations that are in flight at the same time
    is not modelled. *)

Inductive Promise (A : Type) :=
| Fulfilled (a : A)
| Rejected (e : Thrown).
Arguments Fulfilled {A} a.
Arguments Rejected {A} e.

Inductive Completion (A : Type) :=
| Returns (p : Promise A)
| Throws (e : Thrown).
Arguments Returns {A} p.
Arguments Throws {A} e.

(** A byte stream: reading it either yields the content or errors. *)
Inductive Stream :=
| ReadStream (content : string)
| FailingStream (e : Thrown).

(** ** The storage port, as the manager calls it

    [this.libraryStorage.f(args)] is [libraryStorage.f args] applied to the
    state of the storage; it gives the completion of the call and the state
    it leaves, also when the call fails. *)

Module libraryStorage.
Class ILibraryStorage (St : Type) := {
  addFile : ILibraryName -> string -> Stream -> St -> Completion bool * St;
  addLibrary : ILibraryMetadata -> bool -> St -> Completion IInstalledLibrary * St;
  clearFiles : ILibraryName -> St -> Completion unit * St;
  deleteLibrary : ILibraryName -> St -> Completion unit * St;
  fileExists : ILibraryName -> string -> St -> Completion bool * St;
  getFileStream : ILibraryName -> string -> St -> Completion Stream * St;
  getInstalledLibraryNames : list string -> St -> Completion (list ILibraryName) * St;
  getLanguages : ILibraryName -> St -> Completion (list string) * St;
  getLibrary : ILibraryName -> St -> Completion IInstalledLibrary * St;
  libraryExists : ILibraryName -> St -> Completion bool * St;
  listFiles : ILibraryName -> St -> Completion (list string) * St;
  updateLibrary : ILibraryMetadata -> St -> Completion IInstalledLibrary * St
}.
End libraryStorage.
Abbreviation ILibraryStorage := libraryStorage.ILibraryStorage.

(** Every call the manager makes on the port, with its arguments. *)
Inductive StorageCall :=
| CAddFile (library : ILibraryName) (filename : string) (stream : Stream)
| CAddLibrary (metadata : ILibraryMetadata) (restricted : bool)
| CClearFiles (library : ILibraryName)
| CDeleteLibrary (library : ILibraryName)
| CFileExists (library : ILibraryName) (filename : string)
| CGetFileStream (library : ILibraryName) (filename : string)
| CGetInstalledLibraryNames (machineNames : list string)
| CGetLanguages (library : ILibraryName)
| CGetLibrary (library : ILibraryName)
| CLibraryExists (library : ILibraryName)
| CListFiles (library : ILibraryName)
| CUpdateLibrary (metadata : ILibraryMetadata).

(** The calls that change what is stored. *)
Definition mutating (c : StorageCall) : bool :=
  match c with
  | CAddFile _ _ _ | CAddLibrary _ _ | CClearFiles _
  | CDeleteLibrary _ | CUpdateLibrary _ => true
  | _ => false
  end.

(** ** The source directory

    The install source is the tree below [directory]; an entry is the path
    relative to [directory], split at the separators, with the node found
    there.  Entries are listed in the order in which the glob reports them. *)

Inductive Node :=
| File (content : string)
| Folder.

Definition Directory := list (list string * Node).

(** [path.relative(fromDirectory, fileFullPath)] for a path below the
    directory: the segments joined with the separator. *)
Definition relative (segments : list string) : string :=
  String.concat "/" segments.

Definition startsWithDot (segment : string) : bool :=
  match segment with
  | String c _ => Ascii.eqb c "."%char
  | EmptyString => false
  end.

Fixpoint containsDot (segment : string) : bool :=
  match segment with
  | String c rest => Ascii.eqb c "."%char || containsDot rest
  | EmptyString => false
  end.

(** Which relative paths the pattern [`${fromDirectory}/**/*.*`] selects
    under glob's default options: no segment may start with a dot (the
    [dot] option is off), and the last segment must contain a dot.  Folders
    are selected like files (the [nodir] option is off). *)
Definition globMatches (segments : list string) : bool :=
  forallb (fun s => negb (startsWithDot s)) segments &&
  match last segments with
  | Some s => containsDot s
  | None => false
  end.

Definition globPromise (directory : Directory) : list (list string * Node) :=
  List.filter (fun entry => globMatches (fst entry)) directory.

(** [fsExtra.createReadStream(fileFullPath)]: never throws; on a folder the
    stream errors when it is read. *)
Definition createReadStream (node : Node) : Stream :=
  match node with
  | File content => ReadStream content
  | Folder => FailingStream (NativeError "Error" "EISDIR: illegal operation on a directory, read")
  end.

Definition lookupEntry (directory : Directory) (segments : list string) : option Node :=
  snd <$> List.find (fun entry => bool_decide (fst entry = segments)) directory.

(** ** Sorting and grouping *)

(** The order a comparator [cmp] induces: [a] may stand before [b]. *)
Definition byComparator {A} (cmp : A -> A -> Z) (a b : A) : Prop := cmp a b <= 0.

#[global] Instance byComparator_dec {A} (cmp : A -> A -> Z) : RelDecision (byComparator cmp).
Proof. intros a b. unfold byComparator. apply _. Defined.

(** [Array.prototype.sort(cmp)].  Sorting algorithms differ only in the order
    they give to elements that [cmp] does not tell apart. *)
Definition sort {A} (cmp : A -> A -> Z) (l : list A) : list A :=
  merge_sort (byComparator cmp) l.

(** Modelled from the spec: the version comparator [compareVersions] of
    InstalledLibrary.ts, which is not among the sources.  It orders by
    majorVersion, then minorVersion, then patchVersion, and returns a
    negative, zero or positive number. *)
Definition compareVersions (a b : IFullLibraryName) : Z :=
  if negb (majorVersion a - majorVersion b =? 0) then majorVersion a - majorVersion b
  else if negb (minorVersion a - minorVersion b =? 0) then minorVersion a - minorVersion b
  else patchVersion a - patchVersion b.

(** ** What the manager takes from its platform and from helper modules

    [JSON.parse], [path.join] and the helpers [LibraryName.toUberName] and
    [InstalledLibrary.compare] are used by the manager but defined elsewhere;
    they are parameters of the development.  [parseManifest] is [JSON.parse]
    on the text of library.json with the result typed as [ILibraryMetadata]
    ([None] when the text is no JSON). *)

Class Platform := {
  JSONValue : Type;
  JSON_parse : string -> option JSONValue;
  parseManifest : string -> option ILibraryMetadata;
  path_join : string -> string -> string;
  toUberName : ILibraryName -> string;
  compare : IInstalledLibrary -> IInstalledLibrary -> Z
}.

(** The storage together with the record of the calls made on it. *)
Record World (St : Type) := mkWorld {
  store : St;
  log : list StorageCall
}.
Arguments mkWorld {St} store log.
Arguments store {St} w.
Arguments log {St} w.

(** ** Asynchronous computations *)

Section Async.
Context {St : Type}.

(** The body of an [async] function: it runs on the world and settles. *)
Definition Async (A : Type) : Type := World St -> Promise A * World St.

Definition ret {A} (a : A) : Async A := fun w => (Fulfilled a, w).

Definition throw {A} (e : Thrown) : Async A := fun w => (Rejected e, w).

(** [const x = await m; k x] *)
Definition bind {A B} (m : Async A) (k : A -> Async B) : Async B :=
  fun w =>
    match m w with
    | (Fulfilled a, w') => k a w'
    | (Rejected e, w') => (Rejected e, w')
    end.

(** [try { body } catch (error) { handler error }] around awaited code *)
Definition tryCatch {A} (body : Async A) (handler : Thrown -> Async A) : Async A :=
  fun w =>
    match body w with
    | (Fulfilled a, w') => (Fulfilled a, w')
    | (Rejected e, w') => handler e w'
    end.

(** A call on the storage port, recorded in the log. *)
Definition call {A} (c : StorageCall) (op : St -> Completion A * St)
  : World St -> Completion A * World St :=
  fun w =>
    let (r, s') := op (store w) in
    (r, mkWorld s' (log w ++ [c])).

(** [await f(args)], also [return f(args)] outside of a [try]: a
    synchronous throw inside an [async] body rejects like the promise. *)
Definition await {A} (f : World St -> Completion A * World St) : Async A :=
  fun w =>
    match f w with
    | (Returns p, w') => (p, w')
    | (Throws e, w') => (Rejected e, w')
    end.

(** An [async] arrow function used as a callback: calling it never throws. *)
Definition async {A} (m : Async A) : World St -> Completion A * World St :=
  fun w => let (p, w') := m w in (Returns p, w').

(** [list.map(f)] for a callback that hands back promises: the callbacks
    run in order, each up to the promise it returns; a callback that
    throws aborts the map and with it the enclosing [async] body. *)
Fixpoint array_map {A B} (f : A -> World St -> Completion B * World St)
    (l : list A) : Async (list (Promise B)) :=
  fun w =>
    match l with
    | [] => (Fulfilled [], w)
    | x :: rest =>
        match f x w with
        | (Throws e, w') => (Rejected e, w')
        | (Returns p, w') =>
            match array_map f rest w' with
            | (Fulfilled ps, w'') => (Fulfilled (p :: ps), w'')
            | (Rejected e, w'') => (Rejected e, w'')
            end
        end
    end.

(** [Promise.all(promises)]: the values in order, or the first rejection. *)
Fixpoint Promise_all {B} (promises : list (Promise B)) : Promise (list B) :=
  match promises with
  | [] => Fulfilled []
  | Rejected e :: _ => Rejected e
  | Fulfilled b :: rest =>
      match Promise_all rest with
      | Fulfilled bs => Fulfilled (b :: bs)
      | Rejected e => Rejected e
      end
  end.

Definition settled {A} (p : Promise A) : Async A := fun w => (p, w).
End Async.

(** [x ← m; k] is [const x = await m; k], and [m;; k] is [await m; k]. *)
#[global] Instance Async_ret {St} : MRet (@Async St) := fun A => ret.
#[global] Instance Async_bind {St} : MBind (@Async St) := fun A B k m => bind m k.

(** ** The manager *)

Module LibraryManager.
Section Methods.
Context {St : Type} `{!ILibraryStorage St} `{!Platform}.

(** [fsExtra.readJSON(`${directory}/library.json`)] *)
Definition readJSON (directory : Directory) : Promise ILibraryMetadata :=
  match lookupEntry directory ["library.json"] with
  | None => Rejected (NativeError "Error" "ENOENT: no such file or directory, open")
  | Some Folder => Rejected (NativeError "Error" "EISDIR: illegal operation on a directory, read")
  | Some (File content) =>
      match parseManifest content with
      | Some metadata => Fulfilled metadata
      | None => Rejected (NativeError "SyntaxError" "Unexpected token in JSON")
      end
  end.

(** [streamToString] of helpers/StreamHelpers *)
Definition streamToString (stream : Stream) : Promise string :=
  match stream with
  | ReadStream content => Fulfilled content
  | FailingStream e => Rejected e
  end.

Definition getFileStream (library : ILibraryName) (file : string) : Async Stream :=
  await (call (CGetFileStream library file) (libraryStorage.getFileStream library file)).

Definition getJsonFile (library : ILibraryName) (file : string) : Async JSONValue :=
  stream ← await (call (CGetFileStream library file)
                             (libraryStorage.getFileStream library file));
  jsonString ← settled (streamToString stream);
  match JSON_parse jsonString with
  | Some value => ret value
  | None => throw (NativeError "SyntaxError" "Unexpected token in JSON")
  end.

(** [null] is [None]. *)
Definition getLanguage (library : ILibraryName) (language : string)
  : Async (option JSONValue) :=
  tryCatch
    (value ← getJsonFile library (path_join "language" (language ++ ".json")%string);
     ret (Some value))
    (fun ignored => ret None).

(** The [try] block returns the promise of the storage without awaiting
    it, so the [catch] is reached only when the call itself throws;
    [undefined] is [None]. *)
Definition getLibrary (library : ILibraryName) : Async (option IInstalledLibrary) :=
  fun w =>
    match call (CGetLibrary library) (libraryStorage.getLibrary library) w with
    | (Returns (Fulfilled info), w') => (Fulfilled (Some info), w')
    | (Returns (Rejected e), w') => (Rejected e, w')
    | (Throws ignored, w') => (Fulfilled None, w')
    end.

Definition libraryExists (library : ILibraryName) : Async bool :=
  await (call (CLibraryExists library) (libraryStorage.libraryExists library)).

Definition libraryFileExists (library : ILibraryName) (filename : string) : Async bool :=
  await (call (CFileExists library filename) (libraryStorage.fileExists library filename)).

Definition listFiles (library : ILibraryName) : Async (list string) :=
  await (call (CListFiles library) (libraryStorage.listFiles library)).

(** [InstalledLibrary.fromName(libName)] with [patchVersion], [runnable]
    and [title] then copied from [info]. *)
Definition hydrate (libName : ILibraryName) (info : IInstalledLibrary) : IInstalledLibrary :=
  mkInstalled
    (mkMetadata (mkFullLibraryName libName (patchVersion info))
                (title info) (runnable info) None None)
    false.

(** The names of the members that every object literal inherits from
    [Object.prototype]; reading such a key from [{}] yields the inherited
    member, a function or an object, which is truthy and no array. *)
Definition objectPrototypeMembers : list string :=
  [ "constructor"; "__defineGetter__"; "__defineSetter__"; "hasOwnProperty";
    "__lookupGetter__"; "__lookupSetter__"; "isPrototypeOf"; "propertyIsEnumerable";
    "toString"; "valueOf"; "__proto__"; "toLocaleString" ].

Definition inheritedMember (key : string) : bool :=
  existsb (String.eqb key) objectPrototypeMembers.

(** One turn of the grouping loop.  The map holds the own properties of
    [returnObject].  For a key that is no own property and names an
    inherited member, the test [!returnObject[key]] is false, so no array is
    created, and [push], which the member does not have, is called. *)
Definition pushGrouped (returnObject : gmap string (list IInstalledLibrary))
    (library : IInstalledLibrary) : Promise (gmap string (list IInstalledLibrary)) :=
  match returnObject !! machineName library with
  | Some libraries =>
      Fulfilled (<[machineName library := (libraries ++ [library])%list]> returnObject)
  | None =>
      if inheritedMember (machineName library)
      then Rejected (NativeError "TypeError"
                       "returnObject[library.machineName].push is not a function")
      else Fulfilled (<[machineName library := [library]]> returnObject)
  end.

(** [for (const library of libraries) { ... }] over [returnObject] *)
Fixpoint groupLibraries (returnObject : gmap string (list IInstalledLibrary))
    (libraries : list IInstalledLibrary) : Promise (gmap string (list IInstalledLibrary)) :=
  match libraries with
  | [] => Fulfilled returnObject
  | library :: rest =>
      match pushGrouped returnObject library with
      | Fulfilled returnObject => groupLibraries returnObject rest
      | Rejected e => Rejected e
      end
  end.

Definition listInstalledLibraries (machineNames : list string)
  : Async (gmap string (list IInstalledLibrary)) :=
  libraries ← await (call (CGetInstalledLibraryNames machineNames)
                                (libraryStorage.getInstalledLibraryNames machineNames));
  promises ← array_map
    (fun libName => async (
       info ← getLibrary libName;
       match info with
       | Some info => ret (hydrate libName info)
       | None => throw (NativeError "TypeError" "Cannot read property 'patchVersion' of undefined")
       end))
    libraries;
  libraries ← settled (Promise_all promises);
  settled (groupLibraries ∅ (sort compare libraries)).

(** The [for] loop of [isPatchedLibrary]. *)
Fixpoint findPatched (library : IFullLibraryName) (libraryInfos : list IInstalledLibrary)
  : option IFullLibraryName :=
  match libraryInfos with
  | [] => None
  | lib :: rest =>
      if (majorVersion lib =? majorVersion library) && (minorVersion lib =? minorVersion library)
      then
        if patchVersion lib <? patchVersion library
        then Some (mkFullLibraryName
                     (mkLibraryName (machineName lib) (majorVersion lib) (minorVersion lib))
                     (patchVersion lib))
        else None
      else findPatched library rest
  end.

(** When the listing has no group for the machine name and the name is
    that of an inherited member, [wrappedLibraryInfos[name]] is that member:
    the guard does not return, and [for ... of] finds nothing to iterate. *)
Definition isPatchedLibrary (library : IFullLibraryName) : Async (option IFullLibraryName) :=
  wrappedLibraryInfos ← listInstalledLibraries [machineName library];
  match wrappedLibraryInfos !! machineName library with
  | None =>
      if inheritedMember (machineName library)
      then throw (NativeError "TypeError" "libraryInfos is not iterable")
      else ret None
  | Some libraryInfos => ret (findPatched library libraryInfos)
  end.

(** For the name of an inherited member without a group the guard does not
    return either, and the member has no [sort]. *)
Definition libraryHasUpgrade (library : IFullLibraryName) : Async bool :=
  wrappedLibraryInfos ← listInstalledLibraries [machineName library];
  match wrappedLibraryInfos !! machineName library with
  | None =>
      if inheritedMember (machineName library)
      then throw (NativeError "TypeError"
                    "wrappedLibraryInfos[library.machineName].sort is not a function")
      else ret false
  | Some libraryInfos =>
      let allInstalledLibsOfMachineName :=
        sort (fun a b : IInstalledLibrary => compareVersions a b) libraryInfos in
      match last allInstalledLibsOfMachineName with
      | Some highestLocalLibVersion =>
          if compareVersions highestLocalLibVersion library <? 0
          then ret true
          else ret false
      | None => throw (NativeError "TypeError" "Cannot read property 'compareVersions' of undefined")
      end
  end.

(** The paths whose [status] is false, in the order of the list. *)
Definition missingOf (statuses : list (string * bool)) : list string :=
  fst <$> List.filter (fun file => negb (snd file)) statuses.

Definition checkFiles (library : ILibraryName) (requiredFiles : list string) : Async bool :=
  promises ← array_map
    (fun file => async (
       status ← await (call (CFileExists library file)
                                  (libraryStorage.fileExists library file));
       ret (file, status)))
    requiredFiles;
  statuses ← settled (Promise_all promises);
  let missingFiles := missingOf statuses in
  if (0 <? Z.of_nat (length missingFiles))
  then throw (H5pError "library-consistency-check-file-missing"
                [("files", RList missingFiles); ("name", RText (toUberName library))])
  else ret true.

Definition checkConsistency (library : ILibraryName) : Async bool :=
  installed ← libraryExists library;
  if negb installed
  then throw (H5pError "library-consistency-check-not-installed"
                [("name", RText (toUberName library))])
  else
    metadata ← tryCatch
      (await (call (CGetLibrary library) (libraryStorage.getLibrary library)))
      (fun error =>
         throw (H5pError "library-consistency-check-library-json-unreadable"
                  [("message", RText (message error));
                   ("name", RText (toUberName library))]));
    match preloadedJs (installed_meta metadata) with
    | Some js => checkFiles library (path <$> js)
    | None => ret true
    end;;
    match preloadedCss (installed_meta metadata) with
    | Some css => checkFiles library (path <$> css)
    | None => ret true
    end;;
    ret true.

(** The callback of [copyLibraryFiles]; it is no [async] function, so a
    throwing [addFile] aborts the map. *)
Definition copyFile (libraryInfo : ILibraryName) (entry : list string * Node)
  : World St -> Completion bool * World St :=
  let fileLocalPath := relative (fst entry) in
  if String.eqb fileLocalPath "library.json"
  then fun w => (Returns (Fulfilled true), w)
  else
    let readStream := createReadStream (snd entry) in
    call (CAddFile libraryInfo fileLocalPath readStream)
         (libraryStorage.addFile libraryInfo fileLocalPath readStream).

(** The glob itself is taken to succeed. *)
Definition copyLibraryFiles (fromDirectory : Directory) (libraryInfo : ILibraryName)
  : Async unit :=
  let files := globPromise fromDirectory in
  promises ← array_map (copyFile libraryInfo) files;
  settled (Promise_all promises);;
  ret tt.

(** The [try] block of [installLibrary]. *)
Definition installLibrary_try (fromDirectory : Directory)
    (libraryMetadata : ILibraryMetadata) (newLibraryInfo : IInstalledLibrary) : Async unit :=
  copyLibraryFiles fromDirectory newLibraryInfo;;
  checkConsistency libraryMetadata;;
  ret tt.

Definition installLibrary (fromDirectory : Directory)
    (libraryMetadata : ILibraryMetadata) (restricted : bool) : Async IInstalledLibrary :=
  newLibraryInfo ← await (call (CAddLibrary libraryMetadata restricted)
                               (libraryStorage.addLibrary libraryMetadata restricted));
  tryCatch
    (installLibrary_try fromDirectory libraryMetadata newLibraryInfo)
    (fun error =>
       await (call (CDeleteLibrary libraryMetadata)
                   (libraryStorage.deleteLibrary libraryMetadata));;
       throw error);;
  ret newLibraryInfo.

(** The [try] block of [updateLibrary]. *)
Definition updateLibrary_try (newLibraryMetadata : ILibraryMetadata)
    (filesDirectory : Directory) : Async unit :=
  await (call (CUpdateLibrary newLibraryMetadata)
              (libraryStorage.updateLibrary newLibraryMetadata));;
  await (call (CClearFiles newLibraryMetadata)
              (libraryStorage.clearFiles newLibraryMetadata));;
  copyLibraryFiles filesDirectory newLibraryMetadata;;
  checkConsistency newLibraryMetadata;;
  ret tt.

Definition updateLibrary (newLibraryMetadata : ILibraryMetadata)
    (filesDirectory : Directory) : Async unit :=
  tryCatch
    (updateLibrary_try newLibraryMetadata filesDirectory)
    (fun error =>
       await (call (CDeleteLibrary newLibraryMetadata)
                   (libraryStorage.deleteLibrary newLibraryMetadata));;
       throw error).

Definition installFromDirectory (directory : Directory) (restricted : bool)
  : Async ILibraryInstallResult :=
  settled (readJSON directory) ≫= fun newLibraryMetadata : ILibraryMetadata =>
  let newVersion :=
    mkFullLibraryName
      (mkLibraryName (machineName newLibraryMetadata) (majorVersion newLibraryMetadata)
                     (minorVersion newLibraryMetadata))
      (patchVersion newLibraryMetadata) in
  installed ← libraryExists newLibraryMetadata;
  if installed : bool
  then
    oldVersion ← isPatchedLibrary newLibraryMetadata;
    match oldVersion with
    | Some oldVersion =>
        updateLibrary newLibraryMetadata directory;;
        ret (ResultPatch newVersion oldVersion)
    | None => ret ResultNone
    end
  else
    installLibrary directory newLibraryMetadata restricted;;
    ret (ResultNew newVersion).
(** [fileUrlResolver] is the second argument of the constructor; the
    methods that use it take it as their first argument. *)
Definition getLibraryFileUrl (fileUrlResolver : ILibraryName -> string -> string)
    (library : ILibraryName) (file : string) : string :=
  fileUrlResolver library file.

Definition getSemantics (library : ILibraryName) : Async JSONValue :=
  getJsonFile library "semantics.json".

(** [null] is [None]. *)
Definition getUpgradesScriptPath (fileUrlResolver : ILibraryName -> string -> string)
    (library : ILibraryName) : Async (option string) :=
  hasScript ← await (call (CFileExists library "upgrades.js")
                          (libraryStorage.fileExists library "upgrades.js"));
  if hasScript : bool
  then ret (Some (getLibraryFileUrl fileUrlResolver library "upgrades.js"))
  else ret None.

(** [installedLanguages.push('en')] appends to the array the storage handed
    out; the list with the appended code stands for that array. *)
Definition listLanguages (library : ILibraryName) : Async (list string) :=
  tryCatch
    (installedLanguages ← await (call (CGetLanguages library)
                                      (libraryStorage.getLanguages library));
     if existsb (String.eqb "en") installedLanguages
     then ret installedLanguages
     else ret (installedLanguages ++ ["en"])%list)
    (fun error => ret []).
End Methods.
End LibraryManager.

(** ** An in-memory storage, to run the manager on concrete inputs *)

Module MemoryStorage.
Record Slot := mkSlot {
  metadata : ILibraryMetadata;
  isRestricted : bool;
  files : list (string * string)
}.

(** [faults] names the operations that are made to reject, with the error
    they reject with. *)
Record State := mkState {
  slots : list Slot;
  faults : list (string * Thrown)
}.

Definition sameName (a b : ILibraryName) : bool :=
  String.eqb (machineName a) (machineName b)
  && (majorVersion a =? majorVersion b)
  && (minorVersion a =? minorVersion b).

Definition findSlot (library : ILibraryName) (s : State) : option Slot :=
  List.find (fun slot => sameName (metadata slot) library) (slots s).

Definition withoutSlot (library : ILibraryName) (s : State) : list Slot :=
  List.filter (fun slot => negb (sameName (metadata slot) library)) (slots s).

Definition notInstalled : Thrown := NativeError "Error" "library is not installed".

(** An operation rejects with its injected fault, if there is one. *)
Definition guarded {A} (operation : string) (op : State -> Promise A * State)
  : State -> Completion A * State :=
  fun s =>
    match List.find (fun fault => String.eqb (fst fault) operation) (faults s) with
    | Some fault => (Returns (Rejected (snd fault)), s)
    | None => let (p, s') := op s in (Returns p, s')
    end.

Definition onSlot {A} (library : ILibraryName) (k : Slot -> State -> Promise A * State)
  : State -> Promise A * State :=
  fun s =>
    match findSlot library s with
    | Some slot => k slot s
    | None => (Rejected notInstalled, s)
    end.

Definition putSlot (slot : Slot) (s : State) : State :=
  mkState (slot :: withoutSlot (metadata slot) s) (faults s).

Definition languageOf (file : string) : option string :=
  let prefix := "language/" in
  let suffix := ".json" in
  if String.prefix prefix file
     && (String.length prefix + String.length suffix <=? String.length file)%nat
     && String.eqb (String.substring (String.length file - String.length suffix)
                                     (String.length suffix) file) suffix
  then Some (String.substring (String.length prefix)
               (String.length file - String.length prefix - String.length suffix) file)
  else None.

(** Modelled from the spec: an implementation of the store port of §4.2
    that keeps the slots in a list; the storage implementations of the
    repository are not among the sources. *)
#[global] Instance storage : ILibraryStorage State := {|
  libraryStorage.addFile library filename stream :=
    guarded "addFile" (onSlot library (fun slot s =>
      match stream with
      | FailingStream e => (Rejected e, s)
      | ReadStream content =>
          (Fulfilled true,
           putSlot (mkSlot (metadata slot) (isRestricted slot)
                      ((filename, content)
                         :: List.filter (fun f => negb (String.eqb (fst f) filename))
                                        (files slot))) s)
      end));
  libraryStorage.addLibrary libraryMetadata restricted :=
    guarded "addLibrary" (fun s =>
      match findSlot libraryMetadata s with
      | Some _ => (Rejected (NativeError "Error" "library is already installed"), s)
      | None => (Fulfilled (mkInstalled libraryMetadata restricted),
                 putSlot (mkSlot libraryMetadata restricted []) s)
      end);
  libraryStorage.clearFiles library :=
    guarded "clearFiles" (onSlot library (fun slot s =>
      (Fulfilled tt, putSlot (mkSlot (metadata slot) (isRestricted slot) []) s)));
  libraryStorage.deleteLibrary library :=
    guarded "deleteLibrary" (fun s =>
      (Fulfilled tt, mkState (withoutSlot library s) (faults s)));
  libraryStorage.fileExists library filename :=
    guarded "fileExists" (fun s =>
      (Fulfilled
         match findSlot library s with
         | Some slot => existsb (fun f => String.eqb (fst f) filename) (files slot)
         | None => false
         end, s));
  libraryStorage.getFileStream library filename :=
    guarded "getFileStream" (onSlot library (fun slot s =>
      match List.find (fun f => String.eqb (fst f) filename) (files slot) with
      | Some f => (Fulfilled (ReadStream (snd f)), s)
      | None => (Rejected (NativeError "Error" "ENOENT: no such file or directory, open"), s)
      end));
  libraryStorage.getInstalledLibraryNames machineNames :=
    guarded "getInstalledLibraryNames" (fun s =>
      (Fulfilled
         ((fun slot => full_name (metadata slot)) <$>
            List.filter
              (fun slot =>
                 match machineNames with
                 | [] => true
                 | _ => existsb (String.eqb (machineName (metadata slot))) machineNames
                 end)
              (slots s)), s));
  libraryStorage.getLanguages library :=
    guarded "getLanguages" (onSlot library (fun slot s =>
      (Fulfilled (omap (fun f => languageOf (fst f)) (files slot)), s)));
  libraryStorage.getLibrary library :=
    guarded "getLibrary" (onSlot library (fun slot s =>
      (Fulfilled (mkInstalled (metadata slot) (isRestricted slot)), s)));
  libraryStorage.libraryExists library :=
    guarded "libraryExists" (fun s =>
      (Fulfilled (bool_decide (is_Some (findSlot library s))), s));
  libraryStorage.listFiles library :=
    guarded "listFiles" (onSlot library (fun slot s => (Fulfilled (fst <$> files slot), s)));
  libraryStorage.updateLibrary libraryMetadata :=
    guarded "updateLibrary" (onSlot libraryMetadata (fun slot s =>
      (Fulfilled (mkInstalled libraryMetadata (isRestricted slot)),
       putSlot (mkSlot libraryMetadata (isRestricted slot) (files slot)) s)))
|}.

Definition empty : State := mkState [] [].
End MemoryStorage.

(** ** Fixtures: a platform and a few libraries *)

Module Fixtures.
Definition manifest (name : string) (major minor patch : Z)
    (js css : list string) : ILibraryMetadata :=
  mkMetadata (mkFullLibraryName (mkLibraryName name major minor) patch)
    name true (Some (mkPath <$> js)) (Some (mkPath <$> css)).

(** The manifests the fixture parser knows, by the text of library.json. *)
Definition manifests : list (string * ILibraryMetadata) :=
  [ ("A-1.0.0", manifest "A" 1 0 0 ["a.js"] ["a.css"]);
    ("A-1.0.3", manifest "A" 1 0 3 ["a.js"] ["a.css"]);
    ("A-1.0.5", manifest "A" 1 0 5 ["a.js"] ["a.css"]);
    ("A-2.0.0", manifest "A" 2 0 0 ["a.js"] ["a.css"]) ].

#[global] Instance platform : Platform := {|
  JSONValue := string;
  JSON_parse text := if String.prefix "{" text then Some text else None;
  parseManifest text := snd <$> List.find (fun entry => String.eqb (fst entry) text) manifests;
  path_join a b := (a ++ "/" ++ b)%string;
  toUberName library :=
    (machineName library ++ "-" ++ pretty (majorVersion library)
       ++ "." ++ pretty (minorVersion library))%string;
  compare a b := compareVersions a b
|}.

Definition world (s : MemoryStorage.State) : World MemoryStorage.State := mkWorld s [].

(** A complete source directory for the manifest with text [manifestText]. *)
Definition completeDirectory (manifestText : string) : Directory :=
  [ (["a.css"], File "css");
    (["a.js"], File "js");
    (["library.json"], File manifestText) ].

(** A source directory that lacks both declared files. *)
Definition emptyDirectory (manifestText : string) : Directory :=
  [ (["library.json"], File manifestText) ].

(** The storage after [directory] was installed into [s]. *)
Definition after (directory : Directory) (s : MemoryStorage.State) : MemoryStorage.State :=
  store (snd (LibraryManager.installFromDirectory directory false (world s))).

Definition withFaults (faults : list (string * Thrown)) (s : MemoryStorage.State)
  : MemoryStorage.State :=
  MemoryStorage.mkState (MemoryStorage.slots s) faults.

Definition libA : ILibraryName := mkLibraryName "A" 1 0.

Definition versionA (major minor patch : Z) : IFullLibraryName :=
  mkFullLibraryName (mkLibraryName "A" major minor) patch.

(** The record the listing shows for an installed version of A. *)
Definition recordA (major minor patch : Z) : IInstalledLibrary :=
  mkInstalled
    (mkMetadata (versionA major minor patch) "A" true None None)
    false.

(** Storages with one version of A installed from a complete directory. *)
Definition installed100 : MemoryStorage.State :=
  after (completeDirectory "A-1.0.0") MemoryStorage.empty.
Definition installed105 : MemoryStorage.State :=
  after (completeDirectory "A-1.0.5") MemoryStorage.empty.
Definition installed200 : MemoryStorage.State :=
  after (completeDirectory "A-2.0.0") MemoryStorage.empty.

(** A storage that holds the slot of A 1.0.0 and none of its files. *)
Definition slotWithoutFiles : MemoryStorage.State :=
  MemoryStorage.mkState
    [MemoryStorage.mkSlot (manifest "A" 1 0 0 ["a.js"] ["a.css"]) false []] [].

Definition permissionDenied : Thrown :=
  NativeError "Error" "EACCES: permission denied".

(** What the consistency check throws for the missing [files] of A. *)
Definition fileMissing (files : list string) : Thrown :=
  H5pError "library-consistency-check-file-missing"
    [("files", RList files); ("name", RText "A-1.0")].

(** A complete source directory that also holds files whose names have no
    dot, at the root and below it. *)
Definition directoryWithLicense : Directory :=
  [ (["LICENSE"], File "MIT");
    (["a.css"], File "css");
    (["a.js"], File "js");
    (["library.json"], File "A-1.0.0");
    (["fonts"; "README"], File "about the fonts") ].
(** A storage that holds a library whose machine name is the name of a
    member that every object inherits. *)
Definition slotNamedConstructor : MemoryStorage.State :=
  MemoryStorage.mkState
    [MemoryStorage.mkSlot (manifest "constructor" 1 0 0 [] []) false []] [].

(** A storage with the lines 1.0 and 2.0 of A installed. *)
Definition installedBoth : MemoryStorage.State :=
  after (completeDirectory "A-2.0.0") installed100.

(** The metadata the storage [installedBoth] holds for a line of A. *)
Definition metadataOf (name : ILibraryName) : IInstalledLibrary :=
  mkInstalled (manifest "A" (majorVersion name) (minorVersion name) 0 ["a.js"] ["a.css"])
    false.

(** A storage that holds A 1.0.0 with a German language file and a French
    one whose text is no JSON. *)
Definition withLanguages : MemoryStorage.State :=
  MemoryStorage.mkState
    [MemoryStorage.mkSlot (manifest "A" 1 0 0 ["a.js"] ["a.css"]) false
       [("language/de.json", "{}"); ("language/fr.json", "oops")]] [].

(** Which files the storage [installed100] holds for A. *)
Definition holdsBothFiles (file : string) : bool :=
  existsb (fun f : string * string => String.eqb f.1 file) [("a.js", "js"); ("a.css", "css")].

(** A source directory with a second library.json below the root. *)
Definition directoryWithNestedManifest : Directory :=
  [ (["a.css"], File "css");
    (["a.js"], File "js");
    (["library.json"], File "A-1.0.0");
    (["vendor"; "library.json"], File "{}") ].
End Fixtures.

(** ** Observations on a run: the calls made and what they leave behind *)

Section Observations.
Context {St : Type} `{!ILibraryStorage St}.

(** The state of the storage after the call [c] was made on [s]. *)
Definition effect (c : StorageCall) (s : St) : St :=
  match c with
  | CAddFile library filename stream => (libraryStorage.addFile library filename stream s).2
  | CAddLibrary metadata restricted => (libraryStorage.addLibrary metadata restricted s).2
  | CClearFiles library => (libraryStorage.clearFiles library s).2
  | CDeleteLibrary library => (libraryStorage.deleteLibrary library s).2
  | CFileExists library filename => (libraryStorage.fileExists library filename s).2
  | CGetFileStream library filename => (libraryStorage.getFileStream library filename s).2
  | CGetInstalledLibraryNames machineNames =>
      (libraryStorage.getInstalledLibraryNames machineNames s).2
  | CGetLanguages library => (libraryStorage.getLanguages library s).2
  | CGetLibrary library => (libraryStorage.getLibrary library s).2
  | CLibraryExists library => (libraryStorage.libraryExists library s).2
  | CListFiles library => (libraryStorage.listFiles library s).2
  | CUpdateLibrary metadata => (libraryStorage.updateLibrary metadata s).2
  end.

Definition replay (calls : list StorageCall) (s : St) : St :=
  foldl (fun s c => effect c s) s calls.

Definition readOnly (c : StorageCall) : Prop := mutating c = false.

(** A computation is traced by [P] when all it does to the world is to make
    calls that satisfy [P]: the log grows by these calls and the store is
    what these calls leave. *)
Definition Traced (P : StorageCall -> Prop) {X} (m : World St -> X * World St) : Prop :=
  forall w, exists calls,
    log (m w).2 = (log w ++ calls)%list /\
    store (m w).2 = replay calls (store w) /\
    Forall P calls.

(** The reading operations of a storage leave its state as it is. *)
Definition PureReads : Prop :=
  forall c s, mutating c = false -> effect c s = s.

(** The error an awaiting caller sees when a call failed. *)
Definition failure {A} (c : Completion A) : option Thrown :=
  match c with
  | Returns (Fulfilled _) => None
  | Returns (Rejected e) => Some e
  | Throws e => Some e
  end.

(** What the [catch] blocks of [installLibrary] and [updateLibrary] throw
    once their [deleteLibrary] call has completed with [cleanup]: the error
    they caught, unless the cleanup failed itself. *)
Definition rethrown (cleanup : Completion unit) (error : Thrown) : Thrown :=
  match failure cleanup with
  | Some cleanupError => cleanupError
  | None => error
  end.

(** Where the [catch] blocks of [installLibrary] and [updateLibrary] end
    when they caught [error] in the world [w]: [deleteLibrary] was called,
    and what is thrown is [rethrown]. *)
Definition rolledBack {A} (library : ILibraryName) (error : Thrown) (w : World St)
  : Promise A * World St :=
  let cleanup := libraryStorage.deleteLibrary library (store w) in
  (Rejected (rethrown cleanup.1 error),
   mkWorld cleanup.2 (log w ++ [CDeleteLibrary library])%list).

(** The [addFile] calls of a complete [copyLibraryFiles], in glob order. *)
Definition copyCalls (fromDirectory : Directory) (libraryInfo : ILibraryName)
  : list StorageCall :=
  omap (fun entry : list string * Node =>
          if String.eqb (relative entry.1) "library.json" then None
          else Some (CAddFile libraryInfo (relative entry.1) (createReadStream entry.2)))
       (globPromise fromDirectory).

(** [newVersion] as [installFromDirectory] builds it from the manifest. *)
Definition versionOf (metadata : ILibraryMetadata) : IFullLibraryName :=
  mkFullLibraryName
    (mkLibraryName (machineName metadata) (majorVersion metadata) (minorVersion metadata))
    (patchVersion metadata).

(** The groups of a listing are keyed by machine name and never empty. *)
Definition Grouped (returnObject : gmap string (list IInstalledLibrary)) : Prop :=
  forall key libraries, returnObject !! key = Some libraries ->
    libraries <> [] /\ Forall (fun lib : IInstalledLibrary => machineName lib = key) libraries.

(** [highest] is a maximum of [libraryInfos] by the version comparator. *)
Definition isHighest (highest : IInstalledLibrary) (libraryInfos : list IInstalledLibrary)
  : Prop :=
  highest ∈ libraryInfos /\
  forall lib : IInstalledLibrary, lib ∈ libraryInfos -> compareVersions lib highest <= 0.

(** The paths of [paths] that [present] does not hold of. *)
Definition missing (present : string -> bool) (paths : option (list IPath)) : list string :=
  match paths with
  | Some paths => List.filter (fun file => negb (present file)) (path <$> paths)
  | None => []
  end.

(** [surfaced] carries [e]: it is [e] itself, or an [H5pError] that quotes
    the message of [e] among its replacements. *)
Definition carries (surfaced e : Thrown) : Prop :=
  surfaced = e \/
  exists errorId replacements key,
    surfaced = H5pError errorId replacements /\
    (key, RText (message e)) ∈ replacements.
(** The records of [libraries] that have the machine name [key], in the
    order in which they stand in [libraries]. *)
Definition groupOf (key : string) (libraries : list IInstalledLibrary)
  : list IInstalledLibrary :=
  filter (fun lib : IInstalledLibrary => machineName lib = key) libraries.

(** A call that is no [deleteLibrary]. *)
Definition notDelete (c : StorageCall) : Prop :=
  forall library, c <> CDeleteLibrary library.

(** The string holds a path separator. *)
Fixpoint hasSlash (s : string) : bool :=
  match s with
  | String c rest => Ascii.eqb c "/"%char || hasSlash rest
  | EmptyString => false
  end.

(** An [addFile] call that hands an entry of [directory] which the glob
    selects, and which is not the manifest at the root, to [libraryInfo]. *)
Definition copiesEntryOf (directory : Directory) (libraryInfo : ILibraryName)
    (c : StorageCall) : Prop :=
  exists entry : list string * Node,
    entry ∈ directory /\
    globMatches entry.1 = true /\
    relative entry.1 <> "library.json" /\
    c = CAddFile libraryInfo (relative entry.1) (createReadStream entry.2).
End Observations.

(** ** Tracing lemmas *)

Section Tracing.
Context {St : Type} `{!ILibraryStorage St}.

Lemma replay_app (l1 l2 : list StorageCall) (s : St) :
  replay (l1 ++ l2) s = replay l2 (replay l1 s).
Proof. unfold replay. apply foldl_app. Qed.

Lemma replay_readOnly (calls : list StorageCall) (s : St) :
  PureReads -> Forall readOnly calls -> replay calls s = s.
Proof.
  intros Hpure Hro. revert s.
  induction Hro as [|c calls Hc _ IH]; intros s; [reflexivity|].
  simpl. rewrite (Hpure c s Hc). apply IH.
Qed.

Lemma Traced_weaken (P Q : StorageCall -> Prop) {X} (m : World St -> X * World St) :
  (forall c, P c -> Q c) -> Traced P m -> Traced Q m.
Proof.
  intros HPQ Hm w. destruct (Hm w) as (calls & Hlog & Hstore & HP).
  exists calls. repeat split; try assumption.
  eapply Forall_impl; eauto.
Qed.

Lemma Traced_ret P {A} (a : A) : Traced P (ret (St := St) a).
Proof. intros w. exists []. simpl. rewrite app_nil_r. auto. Qed.

Lemma Traced_throw P {A} (e : Thrown) : Traced P (throw (St := St) (A := A) e).
Proof. intros w. exists []. simpl. rewrite app_nil_r. auto. Qed.

Lemma Traced_settled P {A} (p : Promise A) : Traced P (settled (St := St) p).
Proof. intros w. exists []. simpl. rewrite app_nil_r. auto. Qed.

Lemma Traced_call P {A} (c : StorageCall) (op : St -> Completion A * St) :
  P c -> (forall s, (op s).2 = effect c s) -> Traced P (call c op).
Proof.
  intros Hc Hop w. exists [c]. unfold call.
  specialize (Hop (store w)). destruct (op (store w)) as [r s']. simpl in *.
  subst s'. auto.
Qed.

Lemma Traced_await P {A} (f : World St -> Completion A * World St) :
  Traced P f -> Traced P (await f).
Proof.
  intros Hf w. destruct (Hf w) as (calls & Hlog & Hstore & HP).
  exists calls. unfold await. destruct (f w) as [[p|e] w']; auto.
Qed.

Lemma Traced_async P {A} (m : Async A) : Traced P m -> Traced P (async m).
Proof.
  intros Hm w. destruct (Hm w) as (calls & Hlog & Hstore & HP).
  exists calls. unfold async. destruct (m w) as [p w']; auto.
Qed.

Lemma Traced_bind P {A B} (m : Async A) (k : A -> Async B) :
  Traced P m -> (forall a, Traced P (k a)) -> Traced P (m ≫= k).
Proof.
  intros Hm Hk w. destruct (Hm w) as (l1 & Hlog1 & Hstore1 & HP1).
  unfold mbind, Async_bind, bind. destruct (m w) as [[a|e] w1]; simpl in *.
  - destruct (Hk a w1) as (l2 & Hlog2 & Hstore2 & HP2).
    exists (l1 ++ l2)%list. rewrite Hlog2, Hstore2, Hlog1, Hstore1, replay_app, app_assoc.
    repeat split. apply Forall_app; auto.
  - exists l1. auto.
Qed.

Lemma Traced_tryCatch P {A} (body : Async A) (handler : Thrown -> Async A) :
  Traced P body -> (forall e, Traced P (handler e)) -> Traced P (tryCatch body handler).
Proof.
  intros Hm Hk w. destruct (Hm w) as (l1 & Hlog1 & Hstore1 & HP1).
  unfold tryCatch. destruct (body w) as [[a|e] w1]; simpl in *.
  - exists l1. auto.
  - destruct (Hk e w1) as (l2 & Hlog2 & Hstore2 & HP2).
    exists (l1 ++ l2)%list. rewrite Hlog2, Hstore2, Hlog1, Hstore1, replay_app, app_assoc.
    repeat split. apply Forall_app; auto.
Qed.

Lemma Traced_array_map P {A B} (f : A -> World St -> Completion B * World St)
    (l : list A) :
  (forall x, Traced P (f x)) -> Traced P (array_map f l).
Proof.
  intros Hf. induction l as [|x rest IH]; intros w; simpl.
  - exists []. simpl. rewrite app_nil_r. auto.
  - destruct (Hf x w) as (l1 & Hlog1 & Hstore1 & HP1).
    destruct (f x w) as [[p|e] w1]; simpl in *.
    + destruct (IH w1) as (l2 & Hlog2 & Hstore2 & HP2).
      exists (l1 ++ l2)%list.
      destruct (array_map f rest w1) as [[ps|e] w2]; simpl in *;
        rewrite Hlog2, Hstore2, Hlog1, Hstore1, replay_app, app_assoc;
        repeat split; apply Forall_app; auto.
    + exists l1. auto.
Qed.

(** Under pure reads a computation that only reads leaves the store. *)
Lemma Traced_readOnly_store {X} (m : World St -> X * World St) (w : World St) :
  PureReads -> Traced readOnly m -> store (m w).2 = store w.
Proof.
  intros Hpure Hm. destruct (Hm w) as (calls & _ & Hstore & Hro).
  rewrite Hstore. apply replay_readOnly; assumption.
Qed.
End Tracing.

(** ** The reading methods only read *)

Section ManagerFacts.
Context {St : Type} `{!ILibraryStorage St} `{!Platform}.

Lemma libraryExists_readOnly (library : ILibraryName) :
  Traced readOnly (LibraryManager.libraryExists library).
Proof. apply Traced_await, Traced_call; [reflexivity | intros s; reflexivity]. Qed.

Lemma getLibrary_readOnly (library : ILibraryName) :
  Traced readOnly (LibraryManager.getLibrary library).
Proof.
  intros w.
  destruct (Traced_call readOnly (CGetLibrary library) (libraryStorage.getLibrary library)
              eq_refl (fun s => eq_refl) w) as (calls & Hlog & Hstore & Hro).
  exists calls. unfold LibraryManager.getLibrary.
  destruct (call _ _ w) as [[[info|e]|e] w']; auto.
Qed.

Lemma listInstalledLibraries_readOnly (machineNames : list string) :
  Traced readOnly (LibraryManager.listInstalledLibraries machineNames).
Proof.
  unfold LibraryManager.listInstalledLibraries.
  apply Traced_bind.
  { apply Traced_await, Traced_call; [reflexivity | intros s; reflexivity]. }
  intros libraries. apply Traced_bind.
  { apply Traced_array_map. intros libName. apply Traced_async, Traced_bind.
    - apply getLibrary_readOnly.
    - intros [info|]; [apply Traced_ret | apply Traced_throw]. }
  intros promises. apply Traced_bind; [apply Traced_settled|].
  intros hydrated. apply Traced_settled.
Qed.

Lemma isPatchedLibrary_readOnly (library : IFullLibraryName) :
  Traced readOnly (LibraryManager.isPatchedLibrary library).
Proof.
  unfold LibraryManager.isPatchedLibrary.
  apply Traced_bind; [apply listInstalledLibraries_readOnly|].
  intros wrapped. destruct (wrapped !! machineName library); [apply Traced_ret|].
  destruct (LibraryManager.inheritedMember _); [apply Traced_throw | apply Traced_ret].
Qed.

Lemma libraryHasUpgrade_readOnly (library : IFullLibraryName) :
  Traced readOnly (LibraryManager.libraryHasUpgrade library).
Proof.
  unfold LibraryManager.libraryHasUpgrade.
  apply Traced_bind; [apply listInstalledLibraries_readOnly|].
  intros wrapped. destruct (wrapped !! machineName library) as [libraryInfos|].
  2: destruct (LibraryManager.inheritedMember _); [apply Traced_throw | apply Traced_ret].
  cbv zeta. destruct (last _); [|apply Traced_throw].
  destruct (_ <? 0); apply Traced_ret.
Qed.

Lemma checkFiles_readOnly (library : ILibraryName) (requiredFiles : list string) :
  Traced readOnly (LibraryManager.checkFiles library requiredFiles).
Proof.
  unfold LibraryManager.checkFiles.
  apply Traced_bind.
  { apply Traced_array_map. intros file. apply Traced_async, Traced_bind.
    - apply Traced_await, Traced_call; [reflexivity | intros s; reflexivity].
    - intros status. apply Traced_ret. }
  intros promises. apply Traced_bind; [apply Traced_settled|].
  intros statuses. cbv zeta. destruct (0 <? _); [apply Traced_throw | apply Traced_ret].
Qed.

Lemma checkConsistency_readOnly (library : ILibraryName) :
  Traced readOnly (LibraryManager.checkConsistency library).
Proof.
  unfold LibraryManager.checkConsistency.
  apply Traced_bind; [apply libraryExists_readOnly|].
  intros installed. destruct (negb installed); [apply Traced_throw|].
  apply Traced_bind.
  { apply Traced_tryCatch.
    - apply Traced_await, Traced_call; [reflexivity | intros s; reflexivity].
    - intros e. apply Traced_throw. }
  intros metadata. apply Traced_bind.
  { destruct (preloadedJs metadata); [apply checkFiles_readOnly | apply Traced_ret]. }
  intros _. apply Traced_bind.
  { destruct (preloadedCss metadata); [apply checkFiles_readOnly | apply Traced_ret]. }
  intros _. apply Traced_ret.
Qed.

(** *** How [installFromDirectory] branches *)

Lemma installFromDirectory_unreadable (directory : Directory) (restricted : bool)
    (e : Thrown) (w : World St) :
  LibraryManager.readJSON directory = Rejected e ->
  LibraryManager.installFromDirectory directory restricted w = (Rejected e, w).
Proof.
  intros Hread. unfold LibraryManager.installFromDirectory.
  unfold mbind, Async_bind, bind, settled. rewrite Hread. reflexivity.
Qed.

Lemma installFromDirectory_installed (directory : Directory) (restricted : bool)
    (metadata : ILibraryMetadata) (w w1 : World St) :
  LibraryManager.readJSON directory = Fulfilled metadata ->
  LibraryManager.libraryExists metadata w = (Fulfilled true, w1) ->
  LibraryManager.installFromDirectory directory restricted w =
    match LibraryManager.isPatchedLibrary metadata w1 with
    | (Fulfilled (Some oldVersion), w2) =>
        match LibraryManager.updateLibrary metadata directory w2 with
        | (Fulfilled _, w3) => (Fulfilled (ResultPatch (versionOf metadata) oldVersion), w3)
        | (Rejected e, w3) => (Rejected e, w3)
        end
    | (Fulfilled None, w2) => (Fulfilled ResultNone, w2)
    | (Rejected e, w2) => (Rejected e, w2)
    end.
Proof.
  intros Hread Hexists. unfold LibraryManager.installFromDirectory.
  unfold mbind, Async_bind, bind, settled. rewrite Hread, Hexists.
  destruct (LibraryManager.isPatchedLibrary metadata w1) as [[[old|]|e] w2]; reflexivity.
Qed.

Lemma installFromDirectory_fresh (directory : Directory) (restricted : bool)
    (metadata : ILibraryMetadata) (w w1 : World St) :
  LibraryManager.readJSON directory = Fulfilled metadata ->
  LibraryManager.libraryExists metadata w = (Fulfilled false, w1) ->
  LibraryManager.installFromDirectory directory restricted w =
    match LibraryManager.installLibrary directory metadata restricted w1 with
    | (Fulfilled _, w2) => (Fulfilled (ResultNew (versionOf metadata)), w2)
    | (Rejected e, w2) => (Rejected e, w2)
    end.
Proof.
  intros Hread Hexists. unfold LibraryManager.installFromDirectory.
  unfold mbind, Async_bind, bind, settled. rewrite Hread, Hexists.
  destruct (LibraryManager.installLibrary directory metadata restricted w1) as [[info|e] w2];
    reflexivity.
Qed.
End ManagerFacts.

(** ** Reading the manifest *)

Section Manifest.
Context {St : Type} `{!ILibraryStorage St} `{!Platform}.

(** C8: when library.json is missing from the root of the source directory,
    or its text is no JSON, [installFromDirectory] rejects with the error of
    the manifest read and nothing has happened to the storage: no call was
    made, the world is the one the call started from. *)
Theorem install_unreadable_manifest (directory : Directory) (restricted : bool)
    (w : World St) :
  (lookupEntry directory ["library.json"] = None \/
   exists content,
     lookupEntry directory ["library.json"] = Some (File content) /\
     parseManifest content = None) ->
  exists e,
    LibraryManager.readJSON directory = Rejected e /\
    LibraryManager.installFromDirectory directory restricted w = (Rejected e, w).
Proof.
  intros Hbad.
  assert (exists e, LibraryManager.readJSON directory = Rejected e) as [e He].
  { unfold LibraryManager.readJSON.
    destruct Hbad as [-> | (content & -> & ->)]; eauto. }
  exists e. split; [exact He|].
  apply installFromDirectory_unreadable, He.
Qed.
End Manifest.

(** ** The decision not to install *)

Section NoInstall.
Context {St : Type} `{!ILibraryStorage St} `{!Platform}.


Lemma isPatchedLibrary_result (library : IFullLibraryName) (w : World St)
    (wrapped : gmap string (list IInstalledLibrary))
    (libraryInfos : list IInstalledLibrary) :
  (LibraryManager.listInstalledLibraries [machineName library] w).1 = Fulfilled wrapped ->
  wrapped !! machineName library = Some libraryInfos ->
  LibraryManager.isPatchedLibrary library w =
    (Fulfilled (LibraryManager.findPatched library libraryInfos),
     (LibraryManager.listInstalledLibraries [machineName library] w).2).
Proof.
  intros Hlist Hgroup. unfold LibraryManager.isPatchedLibrary, mbind, Async_bind, bind.
  destruct (LibraryManager.listInstalledLibraries _ w) as [p w1]. simpl in *. subst p.
  rewrite Hgroup. reflexivity.
Qed.

End NoInstall.

(** ** Copying, and the rollback of a failed attempt *)

Section Rollback.
Context {St : Type} `{!ILibraryStorage St} `{!Platform}.

Lemma catch_rolledBack {A} (library : ILibraryName) (error : Thrown) (w : World St) :
  (await (call (CDeleteLibrary library) (libraryStorage.deleteLibrary library));;
   throw (A := A) error) w = rolledBack library error w.
Proof.
  unfold rolledBack, rethrown, failure, mbind, Async_bind, bind, await, call, throw.
  destruct (libraryStorage.deleteLibrary library (store w)) as [[[[]|e]|e] s]; reflexivity.
Qed.

(** When the deletion succeeds the rollback rethrows what was caught, and
    the storage is left as the deletion left it. *)
Lemma rolledBack_cleanup_succeeded {A} (library : ILibraryName) (error : Thrown)
    (w : World St) :
  failure (libraryStorage.deleteLibrary library (store w)).1 = None ->
  rolledBack (A := A) library error w =
    (Rejected error,
     mkWorld (effect (CDeleteLibrary library) (store w))
             (log w ++ [CDeleteLibrary library])%list).
Proof.
  intros Hok. unfold rolledBack, rethrown. rewrite Hok. reflexivity.
Qed.

(** When the deletion fails the rollback throws the error of the deletion. *)
Lemma rolledBack_cleanup_failed {A} (library : ILibraryName) (error cleanupError : Thrown)
    (w : World St) :
  failure (libraryStorage.deleteLibrary library (store w)).1 = Some cleanupError ->
  (rolledBack (A := A) library error w).1 = Rejected cleanupError.
Proof.
  intros Hfailed. unfold rolledBack, rethrown. rewrite Hfailed. reflexivity.
Qed.

Lemma copyFile_step (libraryInfo : ILibraryName) (entry : list string * Node)
    (w : World St) :
  LibraryManager.copyFile libraryInfo entry w =
    if String.eqb (relative entry.1) "library.json"
    then (Returns (Fulfilled true), w)
    else
      let c := CAddFile libraryInfo (relative entry.1) (createReadStream entry.2) in
      ((libraryStorage.addFile libraryInfo (relative entry.1)
          (createReadStream entry.2) (store w)).1,
       mkWorld (effect c (store w)) (log w ++ [c])%list).
Proof.
  unfold LibraryManager.copyFile, call.
  destruct (String.eqb (relative entry.1) "library.json"); [reflexivity|].
  simpl. destruct (libraryStorage.addFile _ _ _ _); reflexivity.
Qed.

Lemma array_map_copyFile (libraryInfo : ILibraryName) (entries : list (list string * Node))
    (w : World St) :
  exists calls,
    log (array_map (LibraryManager.copyFile libraryInfo) entries w).2
      = (log w ++ calls)%list /\
    store (array_map (LibraryManager.copyFile libraryInfo) entries w).2
      = replay calls (store w) /\
    calls `prefix_of`
      omap (fun entry : list string * Node =>
              if String.eqb (relative entry.1) "library.json" then None
              else Some (CAddFile libraryInfo (relative entry.1) (createReadStream entry.2)))
           entries /\
    (forall promises,
       (array_map (LibraryManager.copyFile libraryInfo) entries w).1 = Fulfilled promises ->
       calls =
         omap (fun entry : list string * Node =>
                 if String.eqb (relative entry.1) "library.json" then None
                 else Some (CAddFile libraryInfo (relative entry.1)
                              (createReadStream entry.2)))
              entries).
Proof.
  revert w. induction entries as [|entry rest IH]; intros w.
  - exists []. simpl. rewrite app_nil_r. repeat split; auto.
  - cbn [array_map omap list_omap]. rewrite copyFile_step.
    destruct (String.eqb (relative entry.1) "library.json") eqn:Hmanifest.
    + destruct (IH w) as (calls & Hlog & Hstore & Hprefix & Hall).
      exists calls.
      destruct (array_map _ rest w) as [[ps|e] w']; simpl in *;
        repeat split; eauto; intros; discriminate.
    + cbv zeta.
      set (c := CAddFile libraryInfo (relative entry.1) (createReadStream entry.2)).
      destruct (libraryStorage.addFile libraryInfo (relative entry.1)
                  (createReadStream entry.2) (store w)).1 as [p|e]; cbn [fst snd].
      * destruct (IH (mkWorld (effect c (store w)) (log w ++ [c])%list))
          as (calls & Hlog & Hstore & Hprefix & Hall).
        exists (c :: calls).
        destruct (array_map _ rest _) as [[ps|e] w']; simpl in *;
          rewrite Hlog, Hstore, <- app_assoc; simpl.
        -- repeat split; [apply prefix_cons; assumption|].
           intros promises _. f_equal. eauto.
        -- repeat split; [apply prefix_cons; assumption|]. intros; discriminate.
      * exists [c]. simpl.
        repeat split; [apply prefix_cons, prefix_nil | intros; discriminate].
Qed.

Lemma copyLibraryFiles_calls (fromDirectory : Directory) (libraryInfo : ILibraryName)
    (w : World St) :
  let copy := LibraryManager.copyLibraryFiles fromDirectory libraryInfo w in
  exists calls,
    log copy.2 = (log w ++ calls)%list /\
    store copy.2 = replay calls (store w) /\
    calls `prefix_of` copyCalls fromDirectory libraryInfo /\
    (copy.1 = Fulfilled tt -> calls = copyCalls fromDirectory libraryInfo).
Proof.
  destruct (array_map_copyFile libraryInfo (globPromise fromDirectory) w)
    as (calls & Hlog & Hstore & Hprefix & Hall).
  exists calls. unfold LibraryManager.copyLibraryFiles, mbind, Async_bind, bind, settled, ret.
  destruct (array_map _ _ w) as [[ps|e] w']; simpl in *.
  - destruct (Promise_all ps); simpl; repeat split; eauto; intros; discriminate.
  - repeat split; auto; intros; discriminate.
Qed.

Lemma installLibrary_run (fromDirectory : Directory) (libraryMetadata : ILibraryMetadata)
    (restricted : bool) (newLibraryInfo : IInstalledLibrary) (w w1 : World St) :
  await (call (CAddLibrary libraryMetadata restricted)
              (libraryStorage.addLibrary libraryMetadata restricted)) w
    = (Fulfilled newLibraryInfo, w1) ->
  LibraryManager.installLibrary fromDirectory libraryMetadata restricted w =
    match LibraryManager.installLibrary_try fromDirectory libraryMetadata newLibraryInfo w1 with
    | (Fulfilled _, w2) => (Fulfilled newLibraryInfo, w2)
    | (Rejected e, w2) => rolledBack libraryMetadata e w2
    end.
Proof.
  intros Hadd. unfold LibraryManager.installLibrary.
  unfold mbind at 1, Async_bind at 1, bind at 1. rewrite Hadd.
  unfold mbind at 1, Async_bind at 1, bind at 1, tryCatch.
  destruct (LibraryManager.installLibrary_try _ _ _ w1) as [[[]|e] w2]; [reflexivity|].
  rewrite catch_rolledBack. reflexivity.
Qed.

Lemma updateLibrary_run (newLibraryMetadata : ILibraryMetadata) (filesDirectory : Directory)
    (w : World St) :
  LibraryManager.updateLibrary newLibraryMetadata filesDirectory w =
    match LibraryManager.updateLibrary_try newLibraryMetadata filesDirectory w with
    | (Fulfilled u, w1) => (Fulfilled u, w1)
    | (Rejected e, w1) => rolledBack newLibraryMetadata e w1
    end.
Proof.
  unfold LibraryManager.updateLibrary, tryCatch.
  destruct (LibraryManager.updateLibrary_try _ _ w) as [[[]|e] w1]; [reflexivity|].
  apply catch_rolledBack.
Qed.
End Rollback.

(** ** Fresh install *)

Section FreshInstall.
Context {St : Type} `{!ILibraryStorage St} `{!Platform}.

Lemma installLibrary_try_run (fromDirectory : Directory) (libraryMetadata : ILibraryMetadata)
    (newLibraryInfo : IInstalledLibrary) (w : World St) :
  LibraryManager.installLibrary_try fromDirectory libraryMetadata newLibraryInfo w =
    match LibraryManager.copyLibraryFiles fromDirectory newLibraryInfo w with
    | (Fulfilled _, w1) =>
        match LibraryManager.checkConsistency libraryMetadata w1 with
        | (Fulfilled _, w2) => (Fulfilled tt, w2)
        | (Rejected e, w2) => (Rejected e, w2)
        end
    | (Rejected e, w1) => (Rejected e, w1)
    end.
Proof.
  unfold LibraryManager.installLibrary_try, mbind, Async_bind, bind.
  destruct (LibraryManager.copyLibraryFiles _ _ w) as [[[]|e] w1]; [|reflexivity].
  destruct (LibraryManager.checkConsistency _ w1) as [[b|e] w2]; reflexivity.
Qed.

(** C1: take a fresh install, that is, the storage answers that the library
    of the manifest is not installed, and [addLibrary] has added the slot.
    If copying the files fails, or else the consistency check fails, the
    run ends in the rollback: [deleteLibrary] is called on the slot as the
    last call, and the failure is rethrown once that call has succeeded.
    If both succeed the run answers ['new'] with the version of the
    manifest. *)
Theorem fresh_install_all_or_nothing (directory : Directory) (restricted : bool)
    (metadata : ILibraryMetadata) (newLibraryInfo : IInstalledLibrary)
    (w w1 w2 : World St) :
  LibraryManager.readJSON directory = Fulfilled metadata ->
  LibraryManager.libraryExists metadata w = (Fulfilled false, w1) ->
  await (call (CAddLibrary metadata restricted)
              (libraryStorage.addLibrary metadata restricted)) w1
    = (Fulfilled newLibraryInfo, w2) ->
  let copy := LibraryManager.copyLibraryFiles directory newLibraryInfo w2 in
  let check := LibraryManager.checkConsistency metadata copy.2 in
  LibraryManager.installFromDirectory directory restricted w =
    match copy.1 with
    | Rejected e => rolledBack metadata e copy.2
    | Fulfilled _ =>
        match check.1 with
        | Rejected e => rolledBack metadata e check.2
        | Fulfilled _ => (Fulfilled (ResultNew (versionOf metadata)), check.2)
        end
    end.
Proof.
  intros Hread Hfresh Hadd copy check.
  rewrite (installFromDirectory_fresh _ _ _ _ _ Hread Hfresh).
  rewrite (installLibrary_run _ _ _ _ _ _ Hadd), installLibrary_try_run.
  subst check copy.
  destruct (LibraryManager.copyLibraryFiles directory newLibraryInfo w2) as [[[]|e] w3];
    simpl; [|reflexivity].
  destruct (LibraryManager.checkConsistency metadata w3) as [[b|e] w4]; reflexivity.
Qed.
End FreshInstall.

(** ** Patch update *)

Section PatchUpdate.
Context {St : Type} `{!ILibraryStorage St} `{!Platform}.

Lemma await_call_run {A} (c : StorageCall) (op : St -> Completion A * St) (w : World St) :
  (forall s, (op s).2 = effect c s) ->
  await (call c op) w =
    (match (op (store w)).1 with
     | Returns p => p
     | Throws e => Rejected e
     end,
     mkWorld (effect c (store w)) (log w ++ [c])%list).
Proof.
  intros Hop. unfold await, call. rewrite <- Hop.
  destruct (op (store w)) as [[p|e] s]; reflexivity.
Qed.

Lemma await_call_failure {A} (c : StorageCall) (op : St -> Completion A * St)
    (w : World St) (e : Thrown) :
  (forall s, (op s).2 = effect c s) ->
  failure (op (store w)).1 = Some e ->
  await (call c op) w = (Rejected e, mkWorld (effect c (store w)) (log w ++ [c])%list).
Proof.
  intros Hop Hfail. rewrite await_call_run by assumption.
  destruct (op (store w)).1 as [[a|e']|e']; simpl in Hfail; congruence.
Qed.

Lemma pushGrouped_Grouped (returnObject pushed : gmap string (list IInstalledLibrary))
    (library : IInstalledLibrary) :
  Grouped returnObject ->
  LibraryManager.pushGrouped returnObject library = Fulfilled pushed ->
  Grouped pushed.
Proof.
  intros Hobj Hpush key libraries. unfold LibraryManager.pushGrouped in Hpush.
  destruct (returnObject !! machineName library) as [group|] eqn:Hgroup.
  - injection Hpush as <-.
    destruct (decide (machineName library = key)) as [<-|Hne];
      [rewrite lookup_insert_eq | rewrite lookup_insert_ne by assumption; apply Hobj].
    intros [= <-]. destruct (Hobj _ _ Hgroup) as [Hnonempty Hnames]. split.
    + destruct group; discriminate.
    + apply Forall_app. split; [assumption | repeat constructor].
  - destruct (LibraryManager.inheritedMember (machineName library)); [discriminate|].
    injection Hpush as <-.
    destruct (decide (machineName library = key)) as [<-|Hne];
      [rewrite lookup_insert_eq | rewrite lookup_insert_ne by assumption; apply Hobj].
    intros [= <-]. split; [discriminate | repeat constructor].
Qed.

Lemma groupLibraries_Grouped (libraries : list IInstalledLibrary)
    (returnObject grouped : gmap string (list IInstalledLibrary)) :
  Grouped returnObject ->
  LibraryManager.groupLibraries returnObject libraries = Fulfilled grouped ->
  Grouped grouped.
Proof.
  revert returnObject. induction libraries as [|lib rest IH]; intros obj Hobj; simpl.
  - intros [= <-]. assumption.
  - destruct (LibraryManager.pushGrouped obj lib) as [pushed|e] eqn:Hpush; [|discriminate].
    apply IH. eapply pushGrouped_Grouped; eassumption.
Qed.

Lemma listInstalledLibraries_Grouped (machineNames : list string) (w : World St)
    (wrapped : gmap string (list IInstalledLibrary)) :
  (LibraryManager.listInstalledLibraries machineNames w).1 = Fulfilled wrapped ->
  Grouped wrapped.
Proof.
  unfold LibraryManager.listInstalledLibraries, mbind, Async_bind, bind, settled.
  destruct (await _ w) as [[names|e] w1]; [|discriminate].
  destruct (array_map _ names w1) as [[promises|e] w2]; [|discriminate].
  destruct (Promise_all promises) as [hydrated|e]; [|discriminate].
  simpl. apply groupLibraries_Grouped.
  intros key libraries. rewrite lookup_empty. discriminate.
Qed.


Lemma updateLibrary_try_run (newLibraryMetadata : ILibraryMetadata)
    (filesDirectory : Directory) (w : World St) :
  let update := await (call (CUpdateLibrary newLibraryMetadata)
                            (libraryStorage.updateLibrary newLibraryMetadata)) w in
  let clear := await (call (CClearFiles newLibraryMetadata)
                           (libraryStorage.clearFiles newLibraryMetadata)) update.2 in
  let copy := LibraryManager.copyLibraryFiles filesDirectory newLibraryMetadata clear.2 in
  let check := LibraryManager.checkConsistency newLibraryMetadata copy.2 in
  LibraryManager.updateLibrary_try newLibraryMetadata filesDirectory w =
    match update.1 with
    | Rejected e => (Rejected e, update.2)
    | Fulfilled _ =>
        match clear.1 with
        | Rejected e => (Rejected e, clear.2)
        | Fulfilled _ =>
            match copy.1 with
            | Rejected e => (Rejected e, copy.2)
            | Fulfilled _ =>
                match check.1 with
                | Rejected e => (Rejected e, check.2)
                | Fulfilled _ => (Fulfilled tt, check.2)
                end
            end
        end
    end.
Proof.
  cbv zeta. unfold LibraryManager.updateLibrary_try, mbind, Async_bind, bind.
  destruct (await _ w) as [[info|e] w1]; simpl; [|reflexivity].
  destruct (await _ w1) as [[[]|e] w2]; simpl; [|reflexivity].
  destruct (LibraryManager.copyLibraryFiles _ _ w2) as [[[]|e] w3]; simpl; [|reflexivity].
  destruct (LibraryManager.checkConsistency _ w3) as [[b|e] w4]; reflexivity.
Qed.

(** The calls of the [try] block of [updateLibrary] come in the order
    updateLibrary, clearFiles, the addFile calls, the reads of the check. *)
Lemma updateLibrary_try_calls (newLibraryMetadata : ILibraryMetadata)
    (filesDirectory : Directory) (w : World St) :
  let attempt := LibraryManager.updateLibrary_try newLibraryMetadata filesDirectory w in
  exists calls checks,
    log attempt.2 = (log w ++ calls)%list /\
    Forall readOnly checks /\
    calls `prefix_of`
      (CUpdateLibrary newLibraryMetadata :: CClearFiles newLibraryMetadata
         :: copyCalls filesDirectory newLibraryMetadata ++ checks)%list /\
    [CUpdateLibrary newLibraryMetadata] `prefix_of` calls /\
    (attempt.1 = Fulfilled tt ->
     calls = (CUpdateLibrary newLibraryMetadata :: CClearFiles newLibraryMetadata
                :: copyCalls filesDirectory newLibraryMetadata ++ checks)%list).
Proof.
  cbv zeta. rewrite updateLibrary_try_run. cbv zeta.
  rewrite !await_call_run by reflexivity.
  set (cu := CUpdateLibrary newLibraryMetadata).
  set (cc := CClearFiles newLibraryMetadata).
  cbn [fst snd].
  set (w1 := mkWorld (effect cu (store w)) (log w ++ [cu])%list).
  destruct (match (libraryStorage.updateLibrary newLibraryMetadata (store w)).1 with
            | Returns p => p | Throws e => Rejected e end) as [info|e].
  2: { exists [cu], []. cbn [fst snd log]. repeat split; auto.
       - apply prefix_cons, prefix_nil.
       - intros; discriminate. }
  set (w2 := mkWorld (effect cc (store w1)) (log w1 ++ [cc])%list).
  destruct (match (libraryStorage.clearFiles newLibraryMetadata (store w1)).1 with
            | Returns p => p | Throws e => Rejected e end) as [[]|e].
  2: { exists [cu; cc], []. cbn [fst snd]. subst w2 w1. cbn [log].
       rewrite <- app_assoc. repeat split; auto.
       - apply prefix_cons, prefix_cons, prefix_nil.
       - apply prefix_cons, prefix_nil.
       - intros; discriminate. }
  destruct (copyLibraryFiles_calls filesDirectory newLibraryMetadata w2)
    as (copied & Hlog3 & _ & Hprefix3 & Hall3).
  assert (Hlog2 : log w2 = (log w ++ [cu; cc])%list)
    by (subst w2 w1; cbn [log]; rewrite <- app_assoc; reflexivity).
  destruct (LibraryManager.copyLibraryFiles _ _ w2) as [[[]|e] w3]; cbn [fst snd] in *.
  2: { exists (cu :: cc :: copied), []. rewrite Hlog3, Hlog2, <- app_assoc.
       repeat split; auto.
       - apply prefix_cons, prefix_cons. rewrite app_nil_r. assumption.
       - apply prefix_cons, prefix_nil.
       - intros; discriminate. }
  specialize (Hall3 eq_refl). subst copied.
  destruct (checkConsistency_readOnly newLibraryMetadata w3)
    as (checks & Hlog4 & _ & Hro4).
  exists (cu :: cc :: copyCalls filesDirectory newLibraryMetadata ++ checks)%list, checks.
  destruct (LibraryManager.checkConsistency _ w3) as [[b|e] w4]; cbn [fst snd] in *;
    rewrite Hlog4, Hlog3, Hlog2, <- !app_assoc;
    repeat split; auto; apply prefix_cons, prefix_nil.
Qed.


(** C10: in a patch update, when the updateLibrary call of the storage
    fails, the run goes straight to the rollback: after updateLibrary the
    only further call is deleteLibrary on the slot (clearFiles and addFile
    are not called), and the failure of the metadata update is rethrown
    once the deletion has succeeded. *)
Theorem failed_metadata_update_deletes (directory : Directory) (restricted : bool)
    (metadata : ILibraryMetadata) (oldVersion : IFullLibraryName)
    (w w1 w2 : World St) (e : Thrown) :
  LibraryManager.readJSON directory = Fulfilled metadata ->
  LibraryManager.libraryExists metadata w = (Fulfilled true, w1) ->
  LibraryManager.isPatchedLibrary metadata w1 = (Fulfilled (Some oldVersion), w2) ->
  failure (libraryStorage.updateLibrary metadata (store w2)).1 = Some e ->
  let updated := (libraryStorage.updateLibrary metadata (store w2)).2 in
  let cleanup := libraryStorage.deleteLibrary metadata updated in
  LibraryManager.installFromDirectory directory restricted w =
    (Rejected (rethrown cleanup.1 e),
     mkWorld cleanup.2 (log w2 ++ [CUpdateLibrary metadata; CDeleteLibrary metadata])%list).
Proof.
  intros Hread Hexists Hpatched Hfail updated cleanup.
  rewrite (installFromDirectory_installed _ _ _ _ _ Hread Hexists), Hpatched.
  rewrite updateLibrary_run, updateLibrary_try_run. cbv zeta.
  rewrite (await_call_failure _ _ _ e) by (reflexivity || assumption).
  cbn [fst snd]. unfold rolledBack. cbn [store log].
  rewrite <- app_assoc. reflexivity.
Qed.

End PatchUpdate.

(** ** A rollback whose cleanup fails *)

Section CleanupFailure.
Context {St : Type} `{!ILibraryStorage St} `{!Platform}.

(** C6 as the code has it: when the attempt of an install or of an update
    has failed with [original] and the deleteLibrary call of the rollback
    fails with [cleanupError], the run rejects with [cleanupError]; the
    error [original] is not part of the outcome. *)
Theorem cleanup_failure_replaces_original (directory : Directory) (restricted : bool)
    (metadata : ILibraryMetadata) (newLibraryInfo : IInstalledLibrary)
    (oldVersion : IFullLibraryName) (w w1 w2 w3 : World St)
    (original cleanupError : Thrown) :
  LibraryManager.readJSON directory = Fulfilled metadata ->
  (LibraryManager.libraryExists metadata w = (Fulfilled false, w1) /\
   await (call (CAddLibrary metadata restricted)
               (libraryStorage.addLibrary metadata restricted)) w1
     = (Fulfilled newLibraryInfo, w2) /\
   LibraryManager.installLibrary_try directory metadata newLibraryInfo w2
     = (Rejected original, w3))
  \/
  (LibraryManager.libraryExists metadata w = (Fulfilled true, w1) /\
   LibraryManager.isPatchedLibrary metadata w1 = (Fulfilled (Some oldVersion), w2) /\
   LibraryManager.updateLibrary_try metadata directory w2 = (Rejected original, w3)) ->
  failure (libraryStorage.deleteLibrary metadata (store w3)).1 = Some cleanupError ->
  LibraryManager.installFromDirectory directory restricted w =
    (Rejected cleanupError,
     mkWorld (libraryStorage.deleteLibrary metadata (store w3)).2
             (log w3 ++ [CDeleteLibrary metadata])%list).
Proof.
  intros Hread Hpath Hcleanup.
  assert (Hrolled : rolledBack (A := unit) metadata original w3 =
            (Rejected cleanupError,
             mkWorld (libraryStorage.deleteLibrary metadata (store w3)).2
                     (log w3 ++ [CDeleteLibrary metadata])%list))
    by (unfold rolledBack, rethrown; rewrite Hcleanup; reflexivity).
  destruct Hpath as [(Hfresh & Hadd & Htry) | (Hexists & Hpatched & Htry)].
  - rewrite (installFromDirectory_fresh _ _ _ _ _ Hread Hfresh).
    rewrite (installLibrary_run _ _ _ _ _ _ Hadd), Htry.
    unfold rolledBack, rethrown in *. rewrite Hcleanup in *. reflexivity.
  - rewrite (installFromDirectory_installed _ _ _ _ _ Hread Hexists), Hpatched.
    rewrite updateLibrary_run, Htry, Hrolled. reflexivity.
Qed.
End CleanupFailure.

(** ** The version comparator and the upgrade query *)

Section Upgrade.
Context {St : Type} `{!ILibraryStorage St} `{!Platform}.

Lemma compareVersions_refl (a : IFullLibraryName) : compareVersions a a = 0.
Proof.
  unfold compareVersions. rewrite !Z.sub_diag. reflexivity.
Qed.

Lemma compareVersions_flip (a b : IFullLibraryName) :
  compareVersions b a = - compareVersions a b.
Proof.
  unfold compareVersions.
  destruct (Z.eqb_spec (majorVersion a - majorVersion b) 0),
           (Z.eqb_spec (majorVersion b - majorVersion a) 0),
           (Z.eqb_spec (minorVersion a - minorVersion b) 0),
           (Z.eqb_spec (minorVersion b - minorVersion a) 0); simpl; lia.
Qed.

Lemma compareVersions_trans (a b c : IFullLibraryName) :
  compareVersions a b <= 0 -> compareVersions b c <= 0 -> compareVersions a c <= 0.
Proof.
  unfold compareVersions.
  destruct (Z.eqb_spec (majorVersion a - majorVersion b) 0),
           (Z.eqb_spec (majorVersion b - majorVersion c) 0),
           (Z.eqb_spec (majorVersion a - majorVersion c) 0),
           (Z.eqb_spec (minorVersion a - minorVersion b) 0),
           (Z.eqb_spec (minorVersion b - minorVersion c) 0),
           (Z.eqb_spec (minorVersion a - minorVersion c) 0); simpl; lia.
Qed.

Lemma compareVersions_below (a b c : IFullLibraryName) :
  compareVersions a b <= 0 -> compareVersions b c < 0 -> compareVersions a c < 0.
Proof.
  unfold compareVersions.
  destruct (Z.eqb_spec (majorVersion a - majorVersion b) 0),
           (Z.eqb_spec (majorVersion b - majorVersion c) 0),
           (Z.eqb_spec (majorVersion a - majorVersion c) 0),
           (Z.eqb_spec (minorVersion a - minorVersion b) 0),
           (Z.eqb_spec (minorVersion b - minorVersion c) 0),
           (Z.eqb_spec (minorVersion a - minorVersion c) 0); simpl; lia.
Qed.

#[local] Instance byVersion_total :
  Total (byComparator (fun a b : IInstalledLibrary => compareVersions a b)).
Proof.
  intros a b. unfold byComparator. rewrite (compareVersions_flip a b). lia.
Qed.

#[local] Instance byVersion_trans :
  Transitive (byComparator (fun a b : IInstalledLibrary => compareVersions a b)).
Proof. intros a b c. unfold byComparator. apply compareVersions_trans. Qed.

(** The last element of the sorted group is a maximum of the group. *)
Lemma last_sort_isHighest (libraryInfos : list IInstalledLibrary)
    (highest : IInstalledLibrary) :
  last (sort (fun a b : IInstalledLibrary => compareVersions a b) libraryInfos)
    = Some highest ->
  isHighest highest libraryInfos.
Proof.
  unfold sort. intros Hlast.
  pose proof (merge_sort_Permutation
                (byComparator (fun a b : IInstalledLibrary => compareVersions a b))
                libraryInfos) as Hperm.
  pose proof (StronglySorted_merge_sort
                (byComparator (fun a b : IInstalledLibrary => compareVersions a b))
                libraryInfos) as Hsorted.
  apply last_Some in Hlast as [front Hfront]. rewrite Hfront in Hperm, Hsorted.
  split.
  - rewrite <- Hperm. apply elem_of_app. right. left.
  - intros lib Hlib. rewrite <- Hperm in Hlib.
    apply elem_of_app in Hlib as [Hlib | Hlib].
    + apply (StronglySorted_app_1_elem_of _ _ _ _ _ Hsorted Hlib). left.
    + apply list_elem_of_singleton in Hlib as ->. rewrite compareVersions_refl. lia.
Qed.

Lemma sort_nonempty {A} (cmp : A -> A -> Z) (l : list A) : l <> [] -> sort cmp l <> [].
Proof.
  intros Hl Hsorted.
  pose proof (merge_sort_Permutation (byComparator cmp) l) as Hperm.
  unfold sort in Hsorted. rewrite Hsorted in Hperm.
  apply Permutation_nil_l in Hperm. congruence.
Qed.

(** C4 as the code has it: for a candidate whose machine name is not the
    name of a member that every object inherits, [libraryHasUpgrade]
    answers true exactly when the listing has records for the machine name
    of the candidate and their maximum by the version comparator, taken
    over all major and minor versions, is strictly below the candidate. *)
Theorem libraryHasUpgrade_iff_highest_below (library : IFullLibraryName) (w : World St)
    (wrapped : gmap string (list IInstalledLibrary)) :
  LibraryManager.inheritedMember (machineName library) = false ->
  (LibraryManager.listInstalledLibraries [machineName library] w).1 = Fulfilled wrapped ->
  exists answer : bool,
    LibraryManager.libraryHasUpgrade library w
      = (Fulfilled answer, (LibraryManager.listInstalledLibraries [machineName library] w).2) /\
    (answer = true <->
     exists libraryInfos highest,
       wrapped !! machineName library = Some libraryInfos /\
       isHighest highest libraryInfos /\
       compareVersions highest library < 0).
Proof.
  intros Hown Hlist.
  pose proof (listInstalledLibraries_Grouped _ _ _ Hlist) as Hgrouped.
  unfold LibraryManager.libraryHasUpgrade, mbind, Async_bind, bind.
  destruct (LibraryManager.listInstalledLibraries _ w) as [p w1]. simpl in Hlist. subst p.
  cbn [snd].
  destruct (wrapped !! machineName library) as [libraryInfos|] eqn:Hgroup.
  - destruct (Hgrouped _ _ Hgroup) as [Hnonempty _]. cbv zeta.
    destruct (last (sort _ libraryInfos)) as [highest|] eqn:Hlast.
    2: { apply last_None in Hlast. apply sort_nonempty in Hlast; [contradiction|assumption]. }
    apply last_sort_isHighest in Hlast.
    exists (compareVersions highest library <? 0). split.
    + destruct (compareVersions highest library <? 0); reflexivity.
    + rewrite Z.ltb_lt. split.
      * intros Hbelow. exists libraryInfos, highest. auto.
      * intros (infos & other & [= <-] & [_ Hmax] & Hbelow).
        destruct Hlast as [Hin _].
        eapply compareVersions_below; [apply Hmax, Hin | exact Hbelow].
  - rewrite Hown. exists false. split; [reflexivity|]. split; [discriminate|].
    intros (infos & other & Hsome & _). discriminate.
Qed.
End Upgrade.

(** ** The consistency check *)

Section Consistency.
Context {St : Type} `{!ILibraryStorage St} `{!Platform}.

Lemma Promise_all_Fulfilled {B} (values : list B) :
  Promise_all (Fulfilled <$> values) = Fulfilled values.
Proof.
  induction values as [|b rest IH]; [reflexivity|].
  cbn [fmap list_fmap Promise_all]. cbn [fmap] in IH. rewrite IH. reflexivity.
Qed.

Lemma array_map_fileExists (library : ILibraryName) (present : string -> bool)
    (requiredFiles : list string) (w : World St) :
  (forall file, libraryStorage.fileExists library file (store w)
                = (Returns (Fulfilled (present file)), store w)) ->
  array_map
    (fun file => async (
       status ← await (call (CFileExists library file)
                            (libraryStorage.fileExists library file));
       ret (file, status)))
    requiredFiles w =
  (Fulfilled (Fulfilled <$> ((fun file => (file, present file)) <$> requiredFiles)),
   mkWorld (store w) (log w ++ (CFileExists library <$> requiredFiles))%list).
Proof.
  revert w. induction requiredFiles as [|file rest IH]; intros w Hpresent.
  - simpl. rewrite app_nil_r. destruct w; reflexivity.
  - cbn [array_map fmap list_fmap].
    unfold async at 1, mbind at 1, Async_bind at 1, bind at 1, await at 1, call at 1.
    rewrite Hpresent. cbn [ret fst snd].
    rewrite IH by (intros; apply Hpresent). cbn [store log].
    rewrite <- app_assoc. reflexivity.
Qed.

Lemma missingOf_statuses (present : string -> bool) (requiredFiles : list string) :
  LibraryManager.missingOf ((fun file => (file, present file)) <$> requiredFiles)
    = List.filter (fun file => negb (present file)) requiredFiles.
Proof.
  unfold LibraryManager.missingOf.
  induction requiredFiles as [|file rest IH]; [reflexivity|].
  cbn [fmap list_fmap List.filter snd]. destruct (present file); simpl; [|f_equal]; exact IH.
Qed.

Lemma checkFiles_run (library : ILibraryName) (present : string -> bool)
    (requiredFiles : list string) (w : World St) :
  (forall file, libraryStorage.fileExists library file (store w)
                = (Returns (Fulfilled (present file)), store w)) ->
  LibraryManager.checkFiles library requiredFiles w =
    (match List.filter (fun file => negb (present file)) requiredFiles with
     | [] => Fulfilled true
     | missingFiles =>
         Rejected (H5pError "library-consistency-check-file-missing"
                     [("files", RList missingFiles); ("name", RText (toUberName library))])
     end,
     mkWorld (store w) (log w ++ (CFileExists library <$> requiredFiles))%list).
Proof.
  intros Hpresent. unfold LibraryManager.checkFiles.
  unfold mbind at 1, Async_bind at 1, bind at 1.
  rewrite (array_map_fileExists _ present) by assumption.
  unfold mbind, Async_bind, bind, settled. rewrite Promise_all_Fulfilled.
  rewrite missingOf_statuses.
  destruct (List.filter _ requiredFiles); reflexivity.
Qed.

(** C5 as the code has it: for an installed library whose persisted
    metadata is readable, with [present] telling which files the storage
    holds, the check fails with the file-missing error that lists all the
    absent paths of preloadedJs when one of them is absent; only when none
    of them is absent it fails with the error that lists all the absent
    paths of preloadedCss; it succeeds when no declared path is absent. *)
Theorem consistency_check_reports_one_list (library : ILibraryName)
    (metadata : IInstalledLibrary) (present : string -> bool) (w w1 w2 : World St) :
  LibraryManager.libraryExists library w = (Fulfilled true, w1) ->
  await (call (CGetLibrary library) (libraryStorage.getLibrary library)) w1
    = (Fulfilled metadata, w2) ->
  (forall file, libraryStorage.fileExists library file (store w2)
                = (Returns (Fulfilled (present file)), store w2)) ->
  (LibraryManager.checkConsistency library w).1 =
    match missing present (preloadedJs metadata), missing present (preloadedCss metadata) with
    | [], [] => Fulfilled true
    | [], missingCss =>
        Rejected (H5pError "library-consistency-check-file-missing"
                    [("files", RList missingCss); ("name", RText (toUberName library))])
    | missingJs, _ =>
        Rejected (H5pError "library-consistency-check-file-missing"
                    [("files", RList missingJs); ("name", RText (toUberName library))])
    end.
Proof.
  intros Hexists Hmeta Hpresent.
  unfold LibraryManager.checkConsistency.
  unfold mbind at 1, Async_bind at 1, bind at 1. rewrite Hexists. cbn [negb].
  unfold mbind at 1, Async_bind at 1, bind at 1, tryCatch. rewrite Hmeta.
  unfold missing.
  destruct (preloadedJs metadata) as [js|].
  - unfold mbind at 1, Async_bind at 1, bind at 1.
    rewrite (checkFiles_run _ present) by assumption.
    destruct (List.filter _ (path <$> js)) as [|missingJs rest]; [|reflexivity].
    destruct (preloadedCss metadata) as [css|]; [|reflexivity].
    unfold mbind at 1, Async_bind at 1, bind at 1.
    rewrite (checkFiles_run _ present) by assumption.
    destruct (List.filter _ (path <$> css)); reflexivity.
  - unfold mbind at 1, Async_bind at 1, bind at 1, ret at 1.
    destruct (preloadedCss metadata) as [css|]; [|reflexivity].
    unfold mbind at 1, Async_bind at 1, bind at 1.
    rewrite (checkFiles_run _ present) by assumption.
    destruct (List.filter _ (path <$> css)); reflexivity.
Qed.
End Consistency.

(** ** The advisory reads *)

Section AdvisoryReads.
Context {St : Type} `{!ILibraryStorage St} `{!Platform}.

(** A promise the storage rejects passes through [getLibrary] as it is. *)
Lemma getLibrary_passes_rejection (library : ILibraryName) (w : World St) (e : Thrown) :
  (libraryStorage.getLibrary library (store w)).1 = Returns (Rejected e) ->
  (LibraryManager.getLibrary library w).1 = Rejected e.
Proof.
  intros Hrejects. unfold LibraryManager.getLibrary, call.
  destruct (libraryStorage.getLibrary library (store w)) as [c s]. simpl in *.
  subst c. reflexivity.
Qed.

(** Only a storage call that throws is turned into [undefined]. *)
Lemma getLibrary_catches_throw (library : ILibraryName) (w : World St) (e : Thrown) :
  (libraryStorage.getLibrary library (store w)).1 = Throws e ->
  (LibraryManager.getLibrary library w).1 = Fulfilled None.
Proof.
  intros Hthrows. unfold LibraryManager.getLibrary, call.
  destruct (libraryStorage.getLibrary library (store w)) as [c s]. simpl in *.
  subst c. reflexivity.
Qed.

(** [getLanguage] never rejects. *)
Lemma getLanguage_never_rejects (library : ILibraryName) (language : string) (w : World St) :
  exists value, (LibraryManager.getLanguage library language w).1 = Fulfilled value.
Proof.
  unfold LibraryManager.getLanguage, tryCatch.
  match goal with
  | |- context [match ?run with _ => _ end] => destruct run as [[value|e] w']
  end; simpl; eauto.
Qed.

(** When the language file cannot be opened the answer is [null]. *)
Lemma getLanguage_missing_file (library : ILibraryName) (language : string)
    (w : World St) (e : Thrown) :
  failure (libraryStorage.getFileStream library
             (path_join "language" (language ++ ".json")%string) (store w)).1 = Some e ->
  (LibraryManager.getLanguage library language w).1 = Fulfilled None.
Proof.
  intros Hfail.
  unfold LibraryManager.getLanguage, tryCatch, LibraryManager.getJsonFile.
  unfold mbind, Async_bind, bind.
  rewrite (await_call_failure _ _ _ e) by (reflexivity || assumption).
  reflexivity.
Qed.
End AdvisoryReads.

(** ** What the glob leaves out *)

Lemma globPromise_selects (directory : Directory) (entry : list string * Node) :
  entry ∈ globPromise directory <-> entry ∈ directory /\ globMatches entry.1 = true.
Proof.
  unfold globPromise. rewrite !list_elem_of_In, filter_In. reflexivity.
Qed.

Lemma globMatches_needs_dot (segments : list string) (name : string) :
  last segments = Some name -> containsDot name = false -> globMatches segments = false.
Proof.
  intros Hlast Hdot. unfold globMatches. rewrite Hlast, Hdot. apply andb_false_r.
Qed.

(** A file whose name holds no dot is not among the files that
    [copyLibraryFiles] iterates over. *)
Lemma file_without_dot_not_copied (directory : Directory) (segments : list string)
    (name content : string) :
  last segments = Some name -> containsDot name = false ->
  (segments, File content) ∉ globPromise directory.
Proof.
  intros Hlast Hdot Hin. apply globPromise_selects in Hin as [_ Hmatch].
  simpl in Hmatch. rewrite (globMatches_needs_dot _ _ Hlast Hdot) in Hmatch. discriminate.
Qed.

(** ** Runs on the in-memory storage *)

Module Runs.
Import Fixtures.

Lemma MemoryStorage_PureReads : PureReads (St := MemoryStorage.State).
Proof.
  intros c s Hread.
  destruct c; try discriminate; simpl;
    unfold MemoryStorage.guarded, MemoryStorage.onSlot;
    repeat case_match; simplify_eq; reflexivity.
Qed.

(** C7: on a storage where the library is not installed, so that the
    storage rejects the metadata read, [getLibrary] of the manager rejects
    with the error of the storage; it does not answer [undefined]. *)
Theorem getLibrary_rejects_when_not_installed :
  (LibraryManager.getLibrary libA (world MemoryStorage.empty)).1
    = Rejected MemoryStorage.notInstalled.
Proof. reflexivity. Qed.

(** The part of C7 on [getLanguage], on a library without that language. *)
Example getLanguage_missing_is_null :
  (LibraryManager.getLanguage libA "de" (world installed100)).1 = Fulfilled None.
Proof. reflexivity. Qed.

(** C9: installing from a directory that holds, next to the declared
    files, the files LICENSE and fonts/README succeeds, and the only files
    handed to the storage are a.css and a.js: the two files without a dot
    in their name are skipped, as library.json is. *)
Theorem copy_skips_files_without_dot :
  let run := LibraryManager.installFromDirectory directoryWithLicense false
               (world MemoryStorage.empty) in
  run.1 = Fulfilled (ResultNew (versionA 1 0 0)) /\
  copyCalls directoryWithLicense libA
    = [CAddFile libA "a.css" (ReadStream "css"); CAddFile libA "a.js" (ReadStream "js")] /\
  (LibraryManager.libraryFileExists libA "a.js" run.2).1 = Fulfilled true /\
  (LibraryManager.libraryFileExists libA "LICENSE" run.2).1 = Fulfilled false /\
  (LibraryManager.libraryFileExists libA "fonts/README" run.2).1 = Fulfilled false.
Proof. vm_compute. repeat split; reflexivity. Qed.

(** *** The theorems at concrete inputs *)

Lemma install_unreadable_manifest_witness :
  exists e,
    LibraryManager.readJSON [] = Rejected e /\
    LibraryManager.installFromDirectory [] false (world MemoryStorage.empty)
      = (Rejected e, world MemoryStorage.empty).
Proof. apply install_unreadable_manifest. left. reflexivity. Defined.


Lemma fresh_install_all_or_nothing_witness :
  let run := LibraryManager.installFromDirectory (emptyDirectory "A-1.0.0") false
               (world MemoryStorage.empty) in
  run.1 = Rejected (fileMissing ["a.js"]) /\
  last (log run.2) = Some (CDeleteLibrary libA) /\
  (LibraryManager.libraryExists libA run.2).1 = Fulfilled false.
Proof.
  cbv zeta.
  rewrite (fresh_install_all_or_nothing (emptyDirectory "A-1.0.0") false
             (manifest "A" 1 0 0 ["a.js"] ["a.css"])
             (mkInstalled (manifest "A" 1 0 0 ["a.js"] ["a.css"]) false)
             (world MemoryStorage.empty)
             (LibraryManager.libraryExists libA (world MemoryStorage.empty)).2
             (await (call (CAddLibrary (manifest "A" 1 0 0 ["a.js"] ["a.css"]) false)
                          (libraryStorage.addLibrary
                             (manifest "A" 1 0 0 ["a.js"] ["a.css"]) false))
                (LibraryManager.libraryExists libA (world MemoryStorage.empty)).2).2).
  - vm_compute. repeat split; reflexivity.
  - vm_compute. reflexivity.
  - vm_compute. reflexivity.
  - vm_compute. reflexivity.
Defined.


Lemma failed_metadata_update_deletes_witness :
  let w := world (withFaults [("updateLibrary", permissionDenied)] installed100) in
  let run := LibraryManager.installFromDirectory (completeDirectory "A-1.0.5") false w in
  run.1 = Rejected permissionDenied /\
  (LibraryManager.libraryExists libA run.2).1 = Fulfilled false.
Proof.
  cbv zeta.
  rewrite (failed_metadata_update_deletes (completeDirectory "A-1.0.5") false
             (manifest "A" 1 0 5 ["a.js"] ["a.css"]) (versionA 1 0 0)
             (world (withFaults [("updateLibrary", permissionDenied)] installed100))
             (LibraryManager.libraryExists libA
                (world (withFaults [("updateLibrary", permissionDenied)] installed100))).2
             (LibraryManager.isPatchedLibrary (versionA 1 0 5)
                (LibraryManager.libraryExists libA
                   (world (withFaults [("updateLibrary", permissionDenied)] installed100))).2).2
             permissionDenied).
  - vm_compute. split; reflexivity.
  - vm_compute. reflexivity.
  - vm_compute. reflexivity.
  - vm_compute. reflexivity.
  - vm_compute. reflexivity.
Defined.

Lemma cleanup_failure_replaces_original_witness :
  (LibraryManager.installFromDirectory (emptyDirectory "A-1.0.0") false
     (world (withFaults [("deleteLibrary", permissionDenied)] MemoryStorage.empty))).1
    = Rejected permissionDenied.
Proof.
  set (w := world (withFaults [("deleteLibrary", permissionDenied)] MemoryStorage.empty)).
  set (metadata := manifest "A" 1 0 0 ["a.js"] ["a.css"]).
  set (w1 := (LibraryManager.libraryExists libA w).2).
  set (w2 := (await (call (CAddLibrary metadata false)
                          (libraryStorage.addLibrary metadata false)) w1).2).
  rewrite (cleanup_failure_replaces_original (emptyDirectory "A-1.0.0") false
             metadata (mkInstalled metadata false) (versionA 1 0 0) w w1 w2
             (LibraryManager.installLibrary_try (emptyDirectory "A-1.0.0") metadata
                (mkInstalled metadata false) w2).2
             (fileMissing ["a.js"]) permissionDenied).
  - reflexivity.
  - reflexivity.
  - left. repeat split; reflexivity.
  - reflexivity.
Defined.

Lemma libraryHasUpgrade_iff_highest_below_witness :
  exists answer : bool,
    LibraryManager.libraryHasUpgrade (versionA 2 0 0) (world installed105)
      = (Fulfilled answer,
         (LibraryManager.listInstalledLibraries ["A"] (world installed105)).2) /\
    (answer = true <->
     exists libraryInfos highest,
       ({[ "A" := [recordA 1 0 5] ]} : gmap string (list IInstalledLibrary)) !! "A"
         = Some libraryInfos /\
       isHighest highest libraryInfos /\
       compareVersions highest (versionA 2 0 0) < 0).
Proof.
  apply (libraryHasUpgrade_iff_highest_below (versionA 2 0 0) (world installed105)
           {[ "A" := [recordA 1 0 5] ]}).
  - reflexivity.
  - vm_compute. reflexivity.
Defined.

Lemma consistency_check_reports_one_list_witness :
  (LibraryManager.checkConsistency libA (world slotWithoutFiles)).1
    = Rejected (fileMissing ["a.js"]).
Proof.
  rewrite (consistency_check_reports_one_list libA
             (mkInstalled (manifest "A" 1 0 0 ["a.js"] ["a.css"]) false)
             (fun _ => false) (world slotWithoutFiles)
             (LibraryManager.libraryExists libA (world slotWithoutFiles)).2
             (await (call (CGetLibrary libA) (libraryStorage.getLibrary libA))
                (LibraryManager.libraryExists libA (world slotWithoutFiles)).2).2).
  - reflexivity.
  - reflexivity.
  - reflexivity.
  - intros file. reflexivity.
Defined.

(** *** Where the code departs from the claims *)

(** C4 as stated fails: with A 2.0.0 installed, the highest installed
    version is at or above the candidate A 1.0.5, and the answer is false. *)
Lemma hasUpgrade_false_though_newer_installed :
  (LibraryManager.listInstalledLibraries ["A"] (world installed200)).1
    = Fulfilled {[ "A" := [recordA 2 0 0] ]} /\
  isHighest (recordA 2 0 0) [recordA 2 0 0] /\
  0 <= compareVersions (recordA 2 0 0) (versionA 1 0 5) /\
  (LibraryManager.libraryHasUpgrade (versionA 1 0 5) (world installed200)).1
    = Fulfilled false.
Proof.
  split; [vm_compute; reflexivity|]. split.
  - split; [apply list_elem_of_here|].
    intros lib Hlib. apply list_elem_of_singleton in Hlib as ->. vm_compute. discriminate.
  - split; [vm_compute; discriminate | vm_compute; reflexivity].
Qed.

(** C5 as stated fails: a.js and a.css are both declared and both absent,
    and the error of the check lists a.js only. *)
Lemma consistency_check_omits_missing_css :
  (LibraryManager.libraryFileExists libA "a.js" (world slotWithoutFiles)).1 = Fulfilled false /\
  (LibraryManager.libraryFileExists libA "a.css" (world slotWithoutFiles)).1 = Fulfilled false /\
  (LibraryManager.checkConsistency libA (world slotWithoutFiles)).1
    = Rejected (fileMissing ["a.js"]) /\
  (LibraryManager.checkConsistency libA (world slotWithoutFiles)).1
    <> Rejected (fileMissing ["a.js"; "a.css"]).
Proof. vm_compute. repeat split; [reflexivity..|discriminate]. Qed.

(** C6 as stated fails: the attempt fails with the file-missing error, the
    cleanup fails with a permission error, and what the caller gets is the
    permission error, which does not carry the file-missing error. *)
Lemma cleanup_failure_drops_original :
  let w := world (withFaults [("deleteLibrary", permissionDenied)] MemoryStorage.empty) in
  let metadata := manifest "A" 1 0 0 ["a.js"] ["a.css"] in
  let added := (await (call (CAddLibrary metadata false)
                            (libraryStorage.addLibrary metadata false))
                  (LibraryManager.libraryExists libA w).2).2 in
  let attempt := LibraryManager.installLibrary_try (emptyDirectory "A-1.0.0") metadata
                   (mkInstalled metadata false) added in
  attempt.1 = Rejected (fileMissing ["a.js"]) /\
  failure (libraryStorage.deleteLibrary libA (store attempt.2)).1 = Some permissionDenied /\
  exists surfaced,
    (LibraryManager.installFromDirectory (emptyDirectory "A-1.0.0") false w).1
      = Rejected surfaced /\
    ~ (carries surfaced (fileMissing ["a.js"]) /\ carries surfaced permissionDenied).
Proof.
  cbv zeta. split; [reflexivity|]. split; [reflexivity|].
  exists permissionDenied. split; [reflexivity|].
  intros [[Hsame | (errorId & replacements & key & Hh5p & _)] _]; discriminate.
Qed.
End Runs.

(** ** The listing of installed libraries *)

Section Listing.
Context {St : Type} `{!ILibraryStorage St} `{!Platform}.

(** A map over callbacks that each hand back a promise after one call. *)
Lemma array_map_one_call_each {A B} (f : A -> World St -> Completion B * World St)
    (callOf : A -> StorageCall) (l : list A) (w : World St) :
  (forall x w, log (f x w).2 = (log w ++ [callOf x])%list) ->
  (forall x w, exists p, (f x w).1 = Returns p) ->
  log (array_map f l w).2 = (log w ++ (callOf <$> l))%list /\
  exists promises, (array_map f l w).1 = Fulfilled promises.
Proof.
  intros Hlog Hreturns. revert w.
  induction l as [|x rest IH]; intros w.
  - simpl. rewrite app_nil_r. eauto.
  - cbn [array_map fmap list_fmap].
    specialize (Hlog x w). destruct (Hreturns x w) as [p Hp].
    destruct (f x w) as [c w1]. simpl in Hlog, Hp. subst c.
    destruct (IH w1) as [Hrest [promises Hpromises]].
    destruct (array_map f rest w1) as [r w2]. simpl in Hrest, Hpromises. subst r.
    simpl. rewrite Hrest, Hlog, <- app_assoc. eauto.
Qed.

Lemma hydration_one_call (libName : ILibraryName) (w : World St) :
  log (async (info ← LibraryManager.getLibrary libName;
              match info with
              | Some info => ret (LibraryManager.hydrate libName info)
              | None => throw (NativeError "TypeError"
                                 "Cannot read property 'patchVersion' of undefined")
              end) w).2
    = (log w ++ [CGetLibrary libName])%list.
Proof.
  unfold async, mbind, Async_bind, bind, LibraryManager.getLibrary, call.
  destruct (libraryStorage.getLibrary libName (store w)) as [[[info|e]|e] s]; reflexivity.
Qed.

Lemma async_returns {A} (m : Async A) (w : World St) :
  exists p, (async m w).1 = Returns p.
Proof. unfold async. destruct (m w) as [p w']. eauto. Qed.

(** X1: the listing asks the storage for the names once and then for the
    metadata of every name it was given, one call per name and in the order
    of the names, whatever the answers are. *)
Theorem listing_reads_each_name_once (machineNames : list string)
    (names : list ILibraryName) (w : World St) :
  (libraryStorage.getInstalledLibraryNames machineNames (store w)).1
    = Returns (Fulfilled names) ->
  log (LibraryManager.listInstalledLibraries machineNames w).2
    = (log w ++ CGetInstalledLibraryNames machineNames :: (CGetLibrary <$> names))%list.
Proof.
  intros Hnames. unfold LibraryManager.listInstalledLibraries.
  unfold mbind at 1, Async_bind at 1, bind at 1.
  rewrite await_call_run by reflexivity. rewrite Hnames.
  unfold mbind at 1, Async_bind at 1, bind at 1.
  match goal with
  | |- context [array_map ?f names ?w1] =>
      destruct (array_map_one_call_each f CGetLibrary names w1
                  hydration_one_call (fun x w => async_returns _ w))
        as [Hlog [promises Hpromises]];
      destruct (array_map f names w1) as [r w2]
  end.
  simpl in Hlog, Hpromises. subst r.
  unfold mbind, Async_bind, bind, settled.
  destruct (Promise_all promises); simpl; rewrite Hlog; simpl;
    rewrite <- app_assoc; reflexivity.
Qed.

Lemma listing_fulfilled_inv (machineNames : list string) (w : World St)
    (wrapped : gmap string (list IInstalledLibrary)) :
  (LibraryManager.listInstalledLibraries machineNames w).1 = Fulfilled wrapped ->
  exists hydrated,
    LibraryManager.groupLibraries ∅ (sort compare hydrated) = Fulfilled wrapped.
Proof.
  unfold LibraryManager.listInstalledLibraries, mbind, Async_bind, bind, settled, ret.
  destruct (await _ w) as [[names|e] w1]; [|discriminate].
  destruct (array_map _ names w1) as [[promises|e] w2]; [|discriminate].
  destruct (Promise_all promises) as [hydrated|e]; [|discriminate].
  simpl. intros Hgrouped. eauto.
Qed.

Lemma groupLibraries_lookup (libraries : list IInstalledLibrary)
    (returnObject grouped : gmap string (list IInstalledLibrary)) (key : string) :
  LibraryManager.groupLibraries returnObject libraries = Fulfilled grouped ->
  grouped !! key =
    match returnObject !! key with
    | Some group => Some (group ++ groupOf key libraries)%list
    | None =>
        match groupOf key libraries with
        | [] => None
        | group => Some group
        end
    end.
Proof.
  revert returnObject. induction libraries as [|lib rest IH]; intros obj.
  - simpl. intros [= <-]. destruct (obj !! key); [rewrite app_nil_r|]; reflexivity.
  - cbn [LibraryManager.groupLibraries].
    destruct (LibraryManager.pushGrouped obj lib) as [pushed|e] eqn:Hpush; [|discriminate].
    intros Hrest. rewrite (IH _ Hrest). clear IH Hrest.
    unfold groupOf. unfold LibraryManager.pushGrouped in Hpush.
    destruct (decide (machineName lib = key)) as [Hkey|Hkey].
    + rewrite (filter_cons_True (fun l : IInstalledLibrary => machineName l = key) lib rest Hkey).
      subst key.
      destruct (obj !! machineName lib) as [group|].
      * injection Hpush as <-. rewrite lookup_insert_eq, <- app_assoc. reflexivity.
      * destruct (LibraryManager.inheritedMember _); [discriminate|].
        injection Hpush as <-. rewrite lookup_insert_eq. reflexivity.
    + rewrite (filter_cons_False (fun l : IInstalledLibrary => machineName l = key) lib rest Hkey).
      destruct (obj !! machineName lib) as [group|].
      * injection Hpush as <-. rewrite lookup_insert_ne by assumption. reflexivity.
      * destruct (LibraryManager.inheritedMember _); [discriminate|].
        injection Hpush as <-. rewrite lookup_insert_ne by assumption. reflexivity.
Qed.

(** Grouping goes through when no record bears the name of a member that
    every object inherits. *)
Lemma groupLibraries_fulfils (libraries : list IInstalledLibrary)
    (returnObject : gmap string (list IInstalledLibrary)) :
  (forall lib : IInstalledLibrary, lib ∈ libraries ->
     LibraryManager.inheritedMember (machineName lib) = false) ->
  exists grouped, LibraryManager.groupLibraries returnObject libraries = Fulfilled grouped.
Proof.
  revert returnObject. induction libraries as [|lib rest IH]; intros obj Hown; [simpl; eauto|].
  cbn [LibraryManager.groupLibraries]. unfold LibraryManager.pushGrouped.
  destruct (obj !! machineName lib) as [group|].
  - apply IH. intros other Hin. apply Hown. right. assumption.
  - rewrite (Hown lib) by left.
    apply IH. intros other Hin. apply Hown. right. assumption.
Qed.

(** A grouping that went through has no key that names an inherited
    member. *)
Lemma groupLibraries_own_keys (libraries : list IInstalledLibrary)
    (returnObject grouped : gmap string (list IInstalledLibrary)) (key : string) :
  LibraryManager.inheritedMember key = true ->
  returnObject !! key = None ->
  LibraryManager.groupLibraries returnObject libraries = Fulfilled grouped ->
  grouped !! key = None.
Proof.
  intros Hinherited. revert returnObject.
  induction libraries as [|lib rest IH]; intros obj Hnone.
  - simpl. intros [= <-]. assumption.
  - cbn [LibraryManager.groupLibraries].
    destruct (LibraryManager.pushGrouped obj lib) as [pushed|e] eqn:Hpush; [|discriminate].
    apply IH. unfold LibraryManager.pushGrouped in Hpush.
    destruct (decide (machineName lib = key)) as [Hkey|Hkey].
    + subst key. rewrite Hnone, Hinherited in Hpush. discriminate.
    + destruct (obj !! machineName lib) as [group|].
      * injection Hpush as <-. rewrite lookup_insert_ne by assumption. assumption.
      * destruct (LibraryManager.inheritedMember (machineName lib)); [discriminate|].
        injection Hpush as <-. rewrite lookup_insert_ne by assumption. assumption.
Qed.

Lemma StronglySorted_filter {A} (R : relation A) (P : A -> Prop)
    `{!forall x, Decision (P x)} (l : list A) :
  StronglySorted R l -> StronglySorted R (filter P l).
Proof.
  induction 1 as [|x l Hsorted IH Hall]; [constructor|].
  rewrite filter_cons. destruct (decide (P x)); [|assumption].
  constructor; [assumption|].
  apply Forall_forall. intros y Hy. apply list_elem_of_filter in Hy as [_ Hy].
  rewrite Forall_forall in Hall. auto.
Qed.

(** X2: in a listing every group is keyed by the machine name of its
    records and holds at least one record. *)
Theorem listing_groups_keyed (machineNames : list string) (w : World St)
    (wrapped : gmap string (list IInstalledLibrary))
    (key : string) (group : list IInstalledLibrary) :
  (LibraryManager.listInstalledLibraries machineNames w).1 = Fulfilled wrapped ->
  wrapped !! key = Some group ->
  group <> [] /\ forall lib : IInstalledLibrary, lib ∈ group -> machineName lib = key.
Proof.
  intros Hlist Hgroup.
  destruct (listInstalledLibraries_Grouped _ _ _ Hlist _ _ Hgroup) as [Hnonempty Hnames].
  split; [assumption|]. rewrite Forall_forall in Hnames. exact Hnames.
Qed.

(** X3: when [compare] is a total and transitive order, every group of a
    listing is sorted by it. *)
Theorem listing_groups_sorted (machineNames : list string) (w : World St)
    (wrapped : gmap string (list IInstalledLibrary))
    (key : string) (group : list IInstalledLibrary) :
  Transitive (byComparator compare) ->
  Total (byComparator compare) ->
  (LibraryManager.listInstalledLibraries machineNames w).1 = Fulfilled wrapped ->
  wrapped !! key = Some group ->
  StronglySorted (byComparator compare) group.
Proof.
  intros Htrans Htotal Hlist Hgroup.
  apply listing_fulfilled_inv in Hlist as [hydrated Hgrouped].
  rewrite (groupLibraries_lookup _ _ _ key Hgrouped), lookup_empty in Hgroup.
  assert (group = groupOf key (sort compare hydrated)) as ->
    by (destruct (groupOf key (sort compare hydrated)); congruence).
  apply StronglySorted_filter. unfold sort.
  apply (StronglySorted_merge_sort (byComparator compare)).
Qed.

Lemma array_map_hydrate_pure (names : list ILibraryName)
    (info : ILibraryName -> IInstalledLibrary) (w : World St) :
  (forall name, name ∈ names ->
     libraryStorage.getLibrary name (store w) = (Returns (Fulfilled (info name)), store w)) ->
  (array_map
     (fun libName => async (
        info ← LibraryManager.getLibrary libName;
        match info with
        | Some info => ret (LibraryManager.hydrate libName info)
        | None => throw (NativeError "TypeError"
                           "Cannot read property 'patchVersion' of undefined")
        end))
     names w).1
  = Fulfilled (Fulfilled <$> ((fun name => LibraryManager.hydrate name (info name)) <$> names)).
Proof.
  revert w. induction names as [|name rest IH]; intros w Hpure; [reflexivity|].
  cbn [array_map fmap list_fmap].
  unfold async at 1, mbind at 1, Async_bind at 1, bind at 1,
    LibraryManager.getLibrary at 1, call at 1.
  rewrite (Hpure name) by left. cbn [ret fst snd].
  specialize (IH (mkWorld (store w) (log w ++ [CGetLibrary name])%list)).
  cbn [store] in IH.
  destruct (array_map _ rest _) as [r w2]. simpl in IH. simpl.
  rewrite IH by (intros; apply Hpure; right; assumption). reflexivity.
Qed.

(** X4: when the storage hands out [names], none of them bears the name of
    a member that every object inherits, and the metadata of each of them
    can be read, the listing fulfils, and under each machine name it holds
    exactly the records of that name, built from the names with the patch
    version, title and runnable flag of the metadata, in the order
    [compare] sorts them; a machine name without a record is no key. *)
Theorem listing_groups_exact (machineNames : list string) (names : list ILibraryName)
    (info : ILibraryName -> IInstalledLibrary) (w : World St) (s1 : St) :
  libraryStorage.getInstalledLibraryNames machineNames (store w)
    = (Returns (Fulfilled names), s1) ->
  (forall name : ILibraryName, name ∈ names ->
     LibraryManager.inheritedMember (machineName name) = false) ->
  (forall name, name ∈ names ->
     libraryStorage.getLibrary name s1 = (Returns (Fulfilled (info name)), s1)) ->
  exists wrapped,
    (LibraryManager.listInstalledLibraries machineNames w).1 = Fulfilled wrapped /\
    forall key,
      wrapped !! key =
        match groupOf key
                (sort compare ((fun name => LibraryManager.hydrate name (info name)) <$> names))
        with
        | [] => None
        | group => Some group
        end.
Proof.
  intros Hnames Hown Hpure.
  destruct (groupLibraries_fulfils
              (sort compare ((fun name => LibraryManager.hydrate name (info name)) <$> names)) ∅)
    as [wrapped Hgrouped].
  { intros lib Hin. unfold sort in Hin. rewrite merge_sort_Permutation in Hin.
    apply list_elem_of_fmap in Hin as (name & -> & Hin). apply (Hown name Hin). }
  exists wrapped. split.
  - unfold LibraryManager.listInstalledLibraries.
    unfold mbind at 1, Async_bind at 1, bind at 1, await at 1, call at 1.
    rewrite Hnames.
    unfold mbind at 1, Async_bind at 1, bind at 1.
    pose proof (array_map_hydrate_pure names info
                  (mkWorld s1 (log w ++ [CGetInstalledLibraryNames machineNames])%list)
                  Hpure) as Hmap.
    destruct (array_map _ names _) as [r w2]. simpl in Hmap. subst r.
    unfold mbind, Async_bind, bind, settled. rewrite Promise_all_Fulfilled.
    cbn [fst]. rewrite Hgrouped. reflexivity.
  - intros key. rewrite (groupLibraries_lookup _ _ _ key Hgrouped), lookup_empty. reflexivity.
Qed.

Lemma hydration_fails (libName : ILibraryName) (w : World St) :
  failure (libraryStorage.getLibrary libName (store w)).1 <> None ->
  exists e,
    (async (info ← LibraryManager.getLibrary libName;
            match info with
            | Some info => ret (LibraryManager.hydrate libName info)
            | None => throw (NativeError "TypeError"
                               "Cannot read property 'patchVersion' of undefined")
            end) w).1
    = Returns (Rejected e).
Proof.
  unfold async, mbind, Async_bind, bind, LibraryManager.getLibrary, call.
  destruct (libraryStorage.getLibrary libName (store w)) as [[[info|e]|e] s];
    simpl; intros Hfails; [contradiction|eauto..].
Qed.

Lemma array_map_returns {A B} (f : A -> World St -> Completion B * World St)
    (l : list A) (w : World St) :
  (forall x w, exists p, (f x w).1 = Returns p) ->
  exists promises, (array_map f l w).1 = Fulfilled promises.
Proof.
  intros Hreturns. revert w. induction l as [|x rest IH]; intros w; simpl; [eauto|].
  destruct (Hreturns x w) as [p Hp]. destruct (f x w) as [c w1].
  simpl in Hp. subst c. destruct (IH w1) as [promises Hpromises].
  destruct (array_map f rest w1) as [r w2]. simpl in Hpromises. subst r. simpl. eauto.
Qed.

(** One callback that rejects makes [Promise.all] reject; [Inv] is what
    the callbacks keep of the world. *)
Lemma array_map_one_rejects {A B} (f : A -> World St -> Completion B * World St)
    (Inv : World St -> Prop) (l : list A) (x : A) (w : World St) :
  x ∈ l ->
  (forall y w, exists p, (f y w).1 = Returns p) ->
  (forall y w, Inv w -> Inv (f y w).2) ->
  (forall w, Inv w -> exists e, (f x w).1 = Returns (Rejected e)) ->
  Inv w ->
  exists promises e,
    (array_map f l w).1 = Fulfilled promises /\ Promise_all promises = Rejected e.
Proof.
  intros Hin Hreturns Hkeeps Hrejects. revert w.
  induction l as [|y rest IH]; intros w Hinv; [inversion Hin|].
  cbn [array_map].
  apply elem_of_cons in Hin as [<-|Hin].
  - destruct (Hrejects w Hinv) as [e He].
    destruct (f x w) as [c w1]. simpl in He. subst c.
    destruct (array_map_returns f rest w1 Hreturns) as [promises Hpromises].
    destruct (array_map f rest w1) as [r w2]. simpl in Hpromises. subst r.
    exists (Rejected e :: promises), e. split; reflexivity.
  - destruct (Hreturns y w) as [p Hp]. specialize (Hkeeps y w Hinv).
    destruct (f y w) as [c w1]. simpl in Hp, Hkeeps. subst c.
    destruct (IH Hin w1 Hkeeps) as (promises & e & Hpromises & Hall).
    destruct (array_map f rest w1) as [r w2]. simpl in Hpromises. subst r.
    destruct p as [b|e'].
    + exists (Fulfilled b :: promises), e. split; [reflexivity|].
      simpl. rewrite Hall. reflexivity.
    + exists (Rejected e' :: promises), e'. split; reflexivity.
Qed.

Lemma hydration_keeps_store (libName : ILibraryName) (w : World St) :
  PureReads ->
  store (async (info ← LibraryManager.getLibrary libName;
                match info with
                | Some info => ret (LibraryManager.hydrate libName info)
                | None => throw (NativeError "TypeError"
                                   "Cannot read property 'patchVersion' of undefined")
                end) w).2
    = store w.
Proof.
  intros Hpure. apply Traced_readOnly_store; [assumption|].
  apply Traced_async, Traced_bind; [apply getLibrary_readOnly|].
  intros [info|]; [apply Traced_ret | apply Traced_throw].
Qed.

(** X5: on a storage whose reads are pure, when the metadata of one of the
    names the storage hands out cannot be read, the whole listing rejects;
    it yields no partial listing. *)
Theorem listing_fails_on_unreadable_library (machineNames : list string)
    (names : list ILibraryName) (name : ILibraryName) (w : World St) :
  PureReads ->
  (libraryStorage.getInstalledLibraryNames machineNames (store w)).1
    = Returns (Fulfilled names) ->
  name ∈ names ->
  failure (libraryStorage.getLibrary name (store w)).1 <> None ->
  exists e, (LibraryManager.listInstalledLibraries machineNames w).1 = Rejected e.
Proof.
  intros Hpure Hnames Hin Hfails. unfold LibraryManager.listInstalledLibraries.
  unfold mbind at 1, Async_bind at 1, bind at 1.
  rewrite await_call_run by reflexivity. rewrite Hnames.
  unfold mbind at 1, Async_bind at 1, bind at 1.
  match goal with
  | |- context [array_map ?f names ?w1] =>
      destruct (array_map_one_rejects f (fun w' => store w' = store w) names name w1 Hin
                  (fun y w' => async_returns _ w'))
        as (promises & e & Hpromises & Hall)
  end.
  - intros y w' Hsame. rewrite hydration_keeps_store; assumption.
  - intros w' Hsame. apply hydration_fails. rewrite Hsame. assumption.
  - exact (Hpure (CGetInstalledLibraryNames machineNames) (store w) eq_refl).
  - destruct (array_map _ names _) as [r w2]. simpl in Hpromises. subst r.
    unfold mbind, Async_bind, bind, settled. rewrite Hall. eauto.
Qed.
End Listing.

(** ** The patch decision *)

Section PatchDecision.
Context {St : Type} `{!ILibraryStorage St} `{!Platform}.

Lemma findPatched_sound (library : IFullLibraryName) (libraryInfos : list IInstalledLibrary)
    (oldVersion : IFullLibraryName) :
  LibraryManager.findPatched library libraryInfos = Some oldVersion ->
  exists lib : IInstalledLibrary,
    lib ∈ libraryInfos /\
    oldVersion = mkFullLibraryName
                   (mkLibraryName (machineName lib) (majorVersion lib) (minorVersion lib))
                   (patchVersion lib) /\
    majorVersion lib = majorVersion library /\
    minorVersion lib = minorVersion library /\
    patchVersion lib < patchVersion library.
Proof.
  induction libraryInfos as [|lib rest IH]; simpl; [discriminate|].
  destruct ((majorVersion lib =? majorVersion library)
            && (minorVersion lib =? minorVersion library)) eqn:Hline.
  - apply andb_true_iff in Hline as [Hmajor Hminor].
    apply Z.eqb_eq in Hmajor, Hminor.
    destruct (patchVersion lib <? patchVersion library) eqn:Hpatch; [|discriminate].
    apply Z.ltb_lt in Hpatch. intros [= <-].
    exists lib. repeat split; auto. left.
  - intros Hrest. destruct (IH Hrest) as (found & Hin & Hfound).
    exists found. split; [right; assumption | assumption].
Qed.

(** A version [isPatchedLibrary] answers with stems from a record of the
    group that the listing holds for the machine name. *)
Lemma isPatchedLibrary_found (library oldVersion : IFullLibraryName) (w : World St) :
  (LibraryManager.isPatchedLibrary library w).1 = Fulfilled (Some oldVersion) ->
  exists (libraryInfos : list IInstalledLibrary) (lib : IInstalledLibrary),
    Forall (fun other : IInstalledLibrary => machineName other = machineName library)
           libraryInfos /\
    lib ∈ libraryInfos /\
    oldVersion = mkFullLibraryName
                   (mkLibraryName (machineName lib) (majorVersion lib) (minorVersion lib))
                   (patchVersion lib) /\
    majorVersion lib = majorVersion library /\
    minorVersion lib = minorVersion library /\
    patchVersion lib < patchVersion library.
Proof.
  unfold LibraryManager.isPatchedLibrary, mbind, Async_bind, bind.
  destruct (LibraryManager.listInstalledLibraries [machineName library] w)
    as [[wrapped|e] w1] eqn:Hlist; [|discriminate].
  assert (Hgrouped : Grouped wrapped)
    by (eapply listInstalledLibraries_Grouped; rewrite Hlist; reflexivity).
  destruct (wrapped !! machineName library) as [libraryInfos|] eqn:Hgroup;
    [|destruct (LibraryManager.inheritedMember (machineName library)); discriminate].
  simpl. intros [= Hfound].
  apply findPatched_sound in Hfound as (lib & Hin & Hold).
  destruct (Hgrouped _ _ Hgroup) as [_ Hnames].
  exists libraryInfos, lib. auto.
Qed.

(** X6: whatever the storage holds, a version that [isPatchedLibrary]
    answers with has the machine name, major and minor version of the
    library asked about, and a strictly smaller patch version. *)
Theorem isPatchedLibrary_answers_older_patch (library oldVersion : IFullLibraryName)
    (w : World St) :
  (LibraryManager.isPatchedLibrary library w).1 = Fulfilled (Some oldVersion) ->
  machineName oldVersion = machineName library /\
  majorVersion oldVersion = majorVersion library /\
  minorVersion oldVersion = minorVersion library /\
  patchVersion oldVersion < patchVersion library.
Proof.
  intros Hanswer.
  apply isPatchedLibrary_found in Hanswer
    as (libraryInfos & lib & Hnames & Hin & -> & Hmajor & Hminor & Hpatch).
  rewrite Forall_forall in Hnames. simpl.
  repeat split; auto.
Qed.

Lemma findPatched_all_below (library : IFullLibraryName)
    (libraryInfos : list IInstalledLibrary) (lib : IInstalledLibrary) :
  (forall other : IInstalledLibrary, other ∈ libraryInfos ->
     compareVersions other library < 0) ->
  lib ∈ libraryInfos ->
  majorVersion lib = majorVersion library ->
  minorVersion lib = minorVersion library ->
  exists oldVersion, LibraryManager.findPatched library libraryInfos = Some oldVersion.
Proof.
  intros Hbelow Hin Hmajor Hminor.
  induction libraryInfos as [|first rest IH]; [inversion Hin|].
  simpl.
  destruct (Z.eqb_spec (majorVersion first) (majorVersion library)) as [Hmaj|Hmaj];
    destruct (Z.eqb_spec (minorVersion first) (minorVersion library)) as [Hmin|Hmin];
    simpl.
  1: { pose proof (Hbelow first ltac:(left)) as Hfirst.
       unfold compareVersions in Hfirst. rewrite Hmaj, Hmin, !Z.sub_diag in Hfirst.
       simpl in Hfirst.
       destruct (Z.ltb_spec (patchVersion first) (patchVersion library)); [eauto | lia]. }
  all: apply IH;
    [ intros other Hother; apply Hbelow; right; assumption
    | apply elem_of_cons in Hin as [->|Hin]; [congruence | assumption] ].
Qed.

(** X7: when [libraryHasUpgrade] answers true for a library and the listing
    holds a record of its major and minor version, then [isPatchedLibrary],
    asked in the same world, answers with a version: an upgrade on an
    installed line is always a patch of that line. *)
Theorem upgrade_of_installed_line_is_patch (library : IFullLibraryName) (w : World St)
    (wrapped : gmap string (list IInstalledLibrary))
    (libraryInfos : list IInstalledLibrary) (lib : IInstalledLibrary) :
  (LibraryManager.listInstalledLibraries [machineName library] w).1 = Fulfilled wrapped ->
  wrapped !! machineName library = Some libraryInfos ->
  lib ∈ libraryInfos ->
  majorVersion lib = majorVersion library ->
  minorVersion lib = minorVersion library ->
  (LibraryManager.libraryHasUpgrade library w).1 = Fulfilled true ->
  exists oldVersion,
    (LibraryManager.isPatchedLibrary library w).1 = Fulfilled (Some oldVersion).
Proof.
  intros Hlist Hgroup Hin Hmajor Hminor Hupgrade.
  rewrite (isPatchedLibrary_result _ _ _ _ Hlist Hgroup). simpl.
  assert (Hbelow : forall other : IInstalledLibrary, other ∈ libraryInfos ->
                     compareVersions other library < 0).
  { revert Hupgrade.
    unfold LibraryManager.libraryHasUpgrade, mbind, Async_bind, bind.
    destruct (LibraryManager.listInstalledLibraries _ w) as [p w1].
    simpl in Hlist. subst p. rewrite Hgroup. cbv zeta.
    destruct (last (sort _ libraryInfos)) as [highest|] eqn:Hlast; [|discriminate].
    apply last_sort_isHighest in Hlast as [_ Hmax].
    destruct (Z.ltb_spec (compareVersions highest library) 0); [|discriminate].
    intros _ other Hother.
    eapply compareVersions_below; [apply Hmax, Hother | assumption]. }
  destruct (findPatched_all_below library libraryInfos lib Hbelow Hin Hmajor Hminor)
    as [oldVersion ->].
  eauto.
Qed.

(** A machine name that names an inherited member is no key of a listing,
    and the lookup of it yields the inherited member: [libraryHasUpgrade]
    and [isPatchedLibrary] asked about such a name reject with the
    TypeError of the call on that member. *)
Lemma inherited_name_is_no_key (machineNames : list string) (w : World St)
    (wrapped : gmap string (list IInstalledLibrary)) (key : string) :
  LibraryManager.inheritedMember key = true ->
  (LibraryManager.listInstalledLibraries machineNames w).1 = Fulfilled wrapped ->
  wrapped !! key = None.
Proof.
  intros Hinherited Hlist.
  apply listing_fulfilled_inv in Hlist as [hydrated Hgrouped].
  eapply groupLibraries_own_keys; [exact Hinherited | apply lookup_empty | exact Hgrouped].
Qed.

Lemma libraryHasUpgrade_inherited_name (library : IFullLibraryName) (w : World St)
    (wrapped : gmap string (list IInstalledLibrary)) :
  LibraryManager.inheritedMember (machineName library) = true ->
  (LibraryManager.listInstalledLibraries [machineName library] w).1 = Fulfilled wrapped ->
  (LibraryManager.libraryHasUpgrade library w).1
    = Rejected (NativeError "TypeError"
                  "wrappedLibraryInfos[library.machineName].sort is not a function").
Proof.
  intros Hinherited Hlist.
  pose proof (inherited_name_is_no_key _ _ _ _ Hinherited Hlist) as Hnone.
  unfold LibraryManager.libraryHasUpgrade, mbind, Async_bind, bind.
  destruct (LibraryManager.listInstalledLibraries _ w) as [p w1]. simpl in Hlist. subst p.
  rewrite Hnone, Hinherited. reflexivity.
Qed.

Lemma isPatchedLibrary_inherited_name (library : IFullLibraryName) (w : World St)
    (wrapped : gmap string (list IInstalledLibrary)) :
  LibraryManager.inheritedMember (machineName library) = true ->
  (LibraryManager.listInstalledLibraries [machineName library] w).1 = Fulfilled wrapped ->
  (LibraryManager.isPatchedLibrary library w).1
    = Rejected (NativeError "TypeError" "libraryInfos is not iterable").
Proof.
  intros Hinherited Hlist.
  pose proof (inherited_name_is_no_key _ _ _ _ Hinherited Hlist) as Hnone.
  unfold LibraryManager.isPatchedLibrary, mbind, Async_bind, bind.
  destruct (LibraryManager.listInstalledLibraries _ w) as [p w1]. simpl in Hlist. subst p.
  rewrite Hnone, Hinherited. reflexivity.
Qed.
End PatchDecision.

(** ** What a run of [installFromDirectory] does and does not do *)

Section Outcomes.
Context {St : Type} `{!ILibraryStorage St} `{!Platform}.

Lemma installFromDirectory_exists_failed (directory : Directory) (restricted : bool)
    (metadata : ILibraryMetadata) (w w1 : World St) (e : Thrown) :
  LibraryManager.readJSON directory = Fulfilled metadata ->
  LibraryManager.libraryExists metadata w = (Rejected e, w1) ->
  LibraryManager.installFromDirectory directory restricted w = (Rejected e, w1).
Proof.
  intros Hread Hexists. unfold LibraryManager.installFromDirectory.
  unfold mbind, Async_bind, bind, settled. rewrite Hread, Hexists. reflexivity.
Qed.

Lemma installLibrary_add_failed (fromDirectory : Directory)
    (libraryMetadata : ILibraryMetadata) (restricted : bool) (w w1 : World St) (e : Thrown) :
  await (call (CAddLibrary libraryMetadata restricted)
              (libraryStorage.addLibrary libraryMetadata restricted)) w = (Rejected e, w1) ->
  LibraryManager.installLibrary fromDirectory libraryMetadata restricted w = (Rejected e, w1).
Proof.
  intros Hadd. unfold LibraryManager.installLibrary.
  unfold mbind at 1, Async_bind at 1, bind at 1. rewrite Hadd. reflexivity.
Qed.

(** X8: when [addLibrary] itself fails in a fresh install, the run rejects
    with that failure right away: the last call is the failed addLibrary,
    no file is copied and deleteLibrary is not called. *)
Theorem failed_addLibrary_is_not_rolled_back (directory : Directory) (restricted : bool)
    (metadata : ILibraryMetadata) (w w1 : World St) (e : Thrown) :
  LibraryManager.readJSON directory = Fulfilled metadata ->
  LibraryManager.libraryExists metadata w = (Fulfilled false, w1) ->
  failure (libraryStorage.addLibrary metadata restricted (store w1)).1 = Some e ->
  LibraryManager.installFromDirectory directory restricted w =
    (Rejected e,
     mkWorld (effect (CAddLibrary metadata restricted) (store w1))
             (log w1 ++ [CAddLibrary metadata restricted])%list).
Proof.
  intros Hread Hfresh Hfail.
  rewrite (installFromDirectory_fresh _ _ _ _ _ Hread Hfresh).
  erewrite installLibrary_add_failed; [reflexivity|].
  apply await_call_failure; [reflexivity | assumption].
Qed.

(** X9: a run that fulfils reports the version of the manifest as the new
    version; when it answers ['patch'], the old version it reports is on
    the same machine name, major and minor version and has a strictly
    smaller patch version. *)
Theorem install_outcome_versions (directory : Directory) (restricted : bool)
    (w : World St) (result : ILibraryInstallResult) :
  (LibraryManager.installFromDirectory directory restricted w).1 = Fulfilled result ->
  exists metadata,
    LibraryManager.readJSON directory = Fulfilled metadata /\
    match result with
    | ResultNew newVersion => newVersion = versionOf metadata
    | ResultPatch newVersion oldVersion =>
        newVersion = versionOf metadata /\
        machineName oldVersion = machineName metadata /\
        majorVersion oldVersion = majorVersion metadata /\
        minorVersion oldVersion = minorVersion metadata /\
        patchVersion oldVersion < patchVersion metadata
    | ResultNone => True
    end.
Proof.
  destruct (LibraryManager.readJSON directory) as [metadata|e] eqn:Hread.
  2: { rewrite (installFromDirectory_unreadable _ _ _ _ Hread). discriminate. }
  intros Hrun. exists metadata. split; [reflexivity|].
  destruct (LibraryManager.libraryExists metadata w) as [[[|]|e] w1] eqn:Hexists.
  - rewrite (installFromDirectory_installed _ _ _ _ _ Hread Hexists) in Hrun.
    destruct (LibraryManager.isPatchedLibrary metadata w1) as [[[old|]|e] w2] eqn:Hpatched.
    + destruct (LibraryManager.updateLibrary metadata directory w2) as [[[]|e] w3];
        [|discriminate].
      injection Hrun as <-. split; [reflexivity|].
      destruct (isPatchedLibrary_found metadata old w1)
        as (libraryInfos & lib & Hnames & Hin & -> & Hmajor & Hminor & Hpatch);
        [rewrite Hpatched; reflexivity|].
      rewrite Forall_forall in Hnames. simpl. repeat split; auto.
    + injection Hrun as <-. exact I.
    + discriminate.
  - rewrite (installFromDirectory_fresh _ _ _ _ _ Hread Hexists) in Hrun.
    destruct (LibraryManager.installLibrary directory metadata restricted w1)
      as [[info|e] w2]; [|discriminate].
    injection Hrun as <-. reflexivity.
  - rewrite (installFromDirectory_exists_failed _ _ _ _ _ _ Hread Hexists) in Hrun.
    discriminate.
Qed.

(** X10: whenever a run answers ['none'], every call it made on the storage
    is a reading one, and the storage is what these reads left. *)
Theorem none_outcome_made_no_change (directory : Directory) (restricted : bool)
    (w : World St) :
  (LibraryManager.installFromDirectory directory restricted w).1 = Fulfilled ResultNone ->
  exists calls,
    log (LibraryManager.installFromDirectory directory restricted w).2
      = (log w ++ calls)%list /\
    store (LibraryManager.installFromDirectory directory restricted w).2
      = replay calls (store w) /\
    Forall (fun c => mutating c = false) calls.
Proof.
  destruct (LibraryManager.readJSON directory) as [metadata|e] eqn:Hread.
  2: { rewrite (installFromDirectory_unreadable _ _ _ _ Hread). discriminate. }
  destruct (libraryExists_readOnly metadata w) as (l1 & Hlog1 & Hstore1 & Hro1).
  destruct (LibraryManager.libraryExists metadata w) as [[[|]|e] w1] eqn:Hexists.
  - rewrite (installFromDirectory_installed _ _ _ _ _ Hread Hexists).
    destruct (isPatchedLibrary_readOnly metadata w1) as (l2 & Hlog2 & Hstore2 & Hro2).
    destruct (LibraryManager.isPatchedLibrary metadata w1) as [[[old|]|e] w2].
    + destruct (LibraryManager.updateLibrary metadata directory w2) as [[[]|e] w3];
        discriminate.
    + intros _. exists (l1 ++ l2)%list. simpl in *.
      rewrite Hlog2, Hstore2, Hlog1, Hstore1, replay_app, app_assoc.
      repeat split. apply Forall_app. auto.
    + discriminate.
  - rewrite (installFromDirectory_fresh _ _ _ _ _ Hread Hexists).
    destruct (LibraryManager.installLibrary directory metadata restricted w1)
      as [[info|e] w2]; discriminate.
  - rewrite (installFromDirectory_exists_failed _ _ _ _ _ _ Hread Hexists). discriminate.
Qed.
End Outcomes.

(** ** What the copy hands to the storage *)

Section Copying.
Context {St : Type} `{!ILibraryStorage St} `{!Platform}.

Lemma copyCalls_entries (fromDirectory : Directory) (libraryInfo : ILibraryName) :
  Forall (copiesEntryOf fromDirectory libraryInfo) (copyCalls fromDirectory libraryInfo).
Proof.
  apply Forall_forall. intros c Hc. unfold copyCalls in Hc.
  apply list_elem_of_omap in Hc as (entry & Hentry & Hcall).
  apply globPromise_selects in Hentry as [Hin Hmatch].
  destruct (String.eqb_spec (relative entry.1) "library.json") as [|Hother];
    [discriminate|].
  injection Hcall as <-. exists entry. auto.
Qed.

(** X11: every call [copyLibraryFiles] makes is an addFile call on the target
    library that hands over an entry of the source directory which the glob
    selects; the relative path library.json is never handed over. *)
Theorem copy_hands_over_selected_entries_only (fromDirectory : Directory)
    (libraryInfo : ILibraryName) (w : World St) :
  exists calls,
    log (LibraryManager.copyLibraryFiles fromDirectory libraryInfo w).2
      = (log w ++ calls)%list /\
    Forall (copiesEntryOf fromDirectory libraryInfo) calls.
Proof.
  destruct (copyLibraryFiles_calls fromDirectory libraryInfo w)
    as (calls & Hlog & _ & [rest Hprefix] & _).
  exists calls. split; [assumption|].
  pose proof (copyCalls_entries fromDirectory libraryInfo) as Hall.
  rewrite Hprefix in Hall. apply Forall_app in Hall as [Hcalls _]. exact Hcalls.
Qed.

Lemma copyFile_returns (libraryInfo : ILibraryName) (entry : list string * Node)
    (w : World St) :
  (forall library filename stream s,
     exists p, (libraryStorage.addFile library filename stream s).1 = Returns p) ->
  exists p, (LibraryManager.copyFile libraryInfo entry w).1 = Returns p.
Proof.
  intros Hasync. rewrite copyFile_step.
  destruct (String.eqb (relative entry.1) "library.json"); simpl; eauto.
Qed.

(** With a storage whose addFile never throws, a rejected addFile does not
    end the copy: all the calls are made. *)
Lemma copy_attempts_all (fromDirectory : Directory) (libraryInfo : ILibraryName)
    (w : World St) :
  (forall library filename stream s,
     exists p, (libraryStorage.addFile library filename stream s).1 = Returns p) ->
  log (LibraryManager.copyLibraryFiles fromDirectory libraryInfo w).2
    = (log w ++ copyCalls fromDirectory libraryInfo)%list.
Proof.
  intros Hasync.
  destruct (array_map_copyFile libraryInfo (globPromise fromDirectory) w)
    as (calls & Hlog & _ & _ & Hall).
  destruct (array_map_returns (LibraryManager.copyFile libraryInfo)
              (globPromise fromDirectory) w
              (fun entry w => copyFile_returns libraryInfo entry w Hasync))
    as [promises Hpromises].
  specialize (Hall promises Hpromises). subst calls.
  unfold LibraryManager.copyLibraryFiles, mbind, Async_bind, bind, settled, ret.
  destruct (array_map _ _ w) as [r w1]. simpl in Hpromises, Hlog. subst r.
  destruct (Promise_all promises); exact Hlog.
Qed.

Lemma hasSlash_app (a b : string) : hasSlash (a ++ b) = hasSlash a || hasSlash b.
Proof.
  induction a as [|c a IH]; [reflexivity|].
  simpl. rewrite IH. apply orb_assoc.
Qed.

Lemma relative_below_root (first second : string) (rest : list string) :
  hasSlash (relative (first :: second :: rest)) = true.
Proof.
  unfold relative. cbn [String.concat].
  rewrite hasSlash_app. simpl. apply orb_true_r.
Qed.

Lemma relative_not_manifest (segments : list string) :
  globMatches segments = true ->
  segments <> ["library.json"] ->
  relative segments <> "library.json".
Proof.
  intros Hmatch Hother Hsame.
  destruct segments as [|first [|second rest]].
  - discriminate.
  - unfold relative in Hsame. simpl in Hsame. subst first. contradiction.
  - pose proof (relative_below_root first second rest) as Hslash.
    rewrite Hsame in Hslash. discriminate.
Qed.

(** X12: with a storage whose addFile never throws synchronously, every file
    or folder of the source directory that the glob selects, at the root
    or below it, is handed to addFile under its relative path, also after
    an earlier addFile was rejected; the one entry left out is library.json
    at the root, while a library.json below the root is handed over. *)
Theorem copy_reaches_every_selected_entry (fromDirectory : Directory)
    (libraryInfo : ILibraryName) (w : World St) (entry : list string * Node) :
  (forall library filename stream s,
     exists p, (libraryStorage.addFile library filename stream s).1 = Returns p) ->
  entry ∈ fromDirectory ->
  globMatches entry.1 = true ->
  entry.1 <> ["library.json"] ->
  exists calls,
    log (LibraryManager.copyLibraryFiles fromDirectory libraryInfo w).2
      = (log w ++ calls)%list /\
    CAddFile libraryInfo (relative entry.1) (createReadStream entry.2) ∈ calls.
Proof.
  intros Hasync Hin Hmatch Hother.
  exists (copyCalls fromDirectory libraryInfo).
  split; [apply copy_attempts_all, Hasync|].
  unfold copyCalls. apply list_elem_of_omap. exists entry. split.
  - apply globPromise_selects. auto.
  - destruct (String.eqb_spec (relative entry.1) "library.json") as [Hsame|]; [|reflexivity].
    exfalso. exact (relative_not_manifest _ Hmatch Hother Hsame).
Qed.
End Copying.

(** ** When [deleteLibrary] is called *)

Section Deletion.
Context {St : Type} `{!ILibraryStorage St} `{!Platform}.

Lemma readOnly_notDelete (c : StorageCall) : readOnly c -> notDelete c.
Proof. intros Hread library ->. discriminate. Qed.

Lemma copiesEntryOf_notDelete (directory : Directory) (libraryInfo : ILibraryName)
    (c : StorageCall) :
  copiesEntryOf directory libraryInfo c -> notDelete c.
Proof. intros (entry & _ & _ & _ & ->) library. discriminate. Qed.

Lemma Forall_notDelete_app (l1 l2 : list StorageCall) :
  Forall notDelete l1 -> Forall notDelete l2 -> Forall notDelete (l1 ++ l2).
Proof. intros. apply Forall_app. auto. Qed.

(** The calls of the two [try] blocks, none of which is a deleteLibrary. *)
Lemma installLibrary_try_notDelete (fromDirectory : Directory)
    (libraryMetadata : ILibraryMetadata) (newLibraryInfo : IInstalledLibrary)
    (w : World St) :
  exists calls,
    log (LibraryManager.installLibrary_try fromDirectory libraryMetadata newLibraryInfo w).2
      = (log w ++ calls)%list /\
    Forall notDelete calls.
Proof.
  rewrite installLibrary_try_run.
  destruct (copyLibraryFiles_calls fromDirectory newLibraryInfo w)
    as (l1 & Hlog1 & _ & [rest Hprefix] & _).
  assert (Hnd1 : Forall notDelete l1).
  { pose proof (copyCalls_entries fromDirectory newLibraryInfo) as Hall.
    rewrite Hprefix in Hall. apply Forall_app in Hall as [Hcalls _].
    eapply Forall_impl; [exact Hcalls | apply copiesEntryOf_notDelete]. }
  destruct (LibraryManager.copyLibraryFiles _ _ w) as [[[]|e] w1]; simpl in Hlog1; eauto.
  destruct (checkConsistency_readOnly libraryMetadata w1) as (l2 & Hlog2 & _ & Hro2).
  exists (l1 ++ l2)%list.
  destruct (LibraryManager.checkConsistency _ w1) as [[b|e] w2]; simpl in *;
    rewrite Hlog2, Hlog1, app_assoc;
    (split; [reflexivity | apply Forall_notDelete_app; [assumption|]]);
    eapply Forall_impl; eauto using readOnly_notDelete.
Qed.

Lemma updateLibrary_try_notDelete (newLibraryMetadata : ILibraryMetadata)
    (filesDirectory : Directory) (w : World St) :
  exists calls,
    log (LibraryManager.updateLibrary_try newLibraryMetadata filesDirectory w).2
      = (log w ++ calls)%list /\
    Forall notDelete calls.
Proof.
  destruct (updateLibrary_try_calls newLibraryMetadata filesDirectory w)
    as (calls & checks & Hlog & Hchecks & [rest Hprefix] & _).
  exists calls. split; [assumption|].
  assert (Hall : Forall notDelete
                   (CUpdateLibrary newLibraryMetadata :: CClearFiles newLibraryMetadata
                      :: copyCalls filesDirectory newLibraryMetadata ++ checks)%list).
  { repeat constructor; try (intros library; discriminate).
    apply Forall_notDelete_app.
    - eapply Forall_impl; [apply copyCalls_entries|]. apply copiesEntryOf_notDelete.
    - eapply Forall_impl; [exact Hchecks|]. apply readOnly_notDelete. }
  rewrite Hprefix in Hall. apply Forall_app in Hall as [Hcalls _]. exact Hcalls.
Qed.

(** X13: in every run of [installFromDirectory], deleteLibrary is called at
    most once; when it is called it is the last call, it is made on the
    library of the manifest, and the run rejects.  A run that fulfils has
    not called deleteLibrary. *)
Theorem deleteLibrary_only_when_failing (directory : Directory) (restricted : bool)
    (w : World St) :
  exists calls,
    log (LibraryManager.installFromDirectory directory restricted w).2
      = (log w ++ calls)%list /\
    (Forall notDelete calls \/
     exists (metadata : ILibraryMetadata) before e,
       LibraryManager.readJSON directory = Fulfilled metadata /\
       calls = (before ++ [CDeleteLibrary metadata])%list /\
       Forall notDelete before /\
       (LibraryManager.installFromDirectory directory restricted w).1 = Rejected e).
Proof.
  destruct (LibraryManager.readJSON directory) as [metadata|e] eqn:Hread.
  2: { rewrite (installFromDirectory_unreadable _ _ _ _ Hread).
       exists []. simpl. rewrite app_nil_r. auto. }
  destruct (libraryExists_readOnly metadata w) as (l1 & Hlog1 & _ & Hro1).
  assert (Hnd1 : Forall notDelete l1)
    by (eapply Forall_impl; [exact Hro1 | apply readOnly_notDelete]).
  destruct (LibraryManager.libraryExists metadata w) as [[[|]|e] w1] eqn:Hexists;
    simpl in Hlog1.
  - rewrite (installFromDirectory_installed _ _ _ _ _ Hread Hexists).
    destruct (isPatchedLibrary_readOnly metadata w1) as (l2 & Hlog2 & _ & Hro2).
    assert (Hnd2 : Forall notDelete l2)
      by (eapply Forall_impl; [exact Hro2 | apply readOnly_notDelete]).
    destruct (LibraryManager.isPatchedLibrary metadata w1) as [[[old|]|e] w2];
      simpl in Hlog2.
    2,3: exists (l1 ++ l2)%list; simpl; rewrite Hlog2, Hlog1, app_assoc;
         split; [reflexivity | left; apply Forall_notDelete_app; assumption].
    rewrite updateLibrary_run.
    destruct (updateLibrary_try_notDelete metadata directory w2) as (l3 & Hlog3 & Hnd3).
    destruct (LibraryManager.updateLibrary_try metadata directory w2) as [[[]|e] w3];
      simpl in Hlog3.
    + exists (l1 ++ l2 ++ l3)%list. simpl. rewrite Hlog3, Hlog2, Hlog1, !app_assoc.
      split; [reflexivity|]. left. rewrite <- app_assoc.
      repeat apply Forall_notDelete_app; assumption.
    + exists ((l1 ++ l2 ++ l3) ++ [CDeleteLibrary metadata])%list.
      unfold rolledBack. cbn [fst snd log].
      rewrite Hlog3, Hlog2, Hlog1, !app_assoc. split; [reflexivity|]. right.
      exists metadata, ((l1 ++ l2) ++ l3)%list. eexists.
      repeat split; repeat apply Forall_notDelete_app; assumption.
  - rewrite (installFromDirectory_fresh _ _ _ _ _ Hread Hexists).
    destruct (Traced_await notDelete _
                (Traced_call notDelete (CAddLibrary metadata restricted)
                   (libraryStorage.addLibrary metadata restricted)
                   ltac:(intros library; discriminate) (fun s => eq_refl)) w1)
      as (l2 & Hlog2 & _ & Hnd2).
    destruct (await _ w1) as [[info|e] w2] eqn:Hadd; simpl in Hlog2.
    2: { rewrite (installLibrary_add_failed _ _ _ _ _ _ Hadd).
         exists (l1 ++ l2)%list. simpl. rewrite Hlog2, Hlog1, app_assoc.
         split; [reflexivity | left; apply Forall_notDelete_app; assumption]. }
    rewrite (installLibrary_run _ _ _ _ _ _ Hadd).
    destruct (installLibrary_try_notDelete directory metadata info w2)
      as (l3 & Hlog3 & Hnd3).
    destruct (LibraryManager.installLibrary_try directory metadata info w2) as [[[]|e] w3];
      simpl in Hlog3.
    + exists (l1 ++ l2 ++ l3)%list. simpl. rewrite Hlog3, Hlog2, Hlog1, !app_assoc.
      split; [reflexivity|]. left. rewrite <- app_assoc.
      repeat apply Forall_notDelete_app; assumption.
    + exists ((l1 ++ l2 ++ l3) ++ [CDeleteLibrary metadata])%list.
      unfold rolledBack. cbn [fst snd log].
      rewrite Hlog3, Hlog2, Hlog1, !app_assoc. split; [reflexivity|]. right.
      exists metadata, ((l1 ++ l2) ++ l3)%list. eexists.
      repeat split; repeat apply Forall_notDelete_app; assumption.
  - rewrite (installFromDirectory_exists_failed _ _ _ _ _ _ Hread Hexists).
    exists l1. simpl. auto.
Qed.
End Deletion.

(** ** More on the consistency check *)

Section ConsistencyEdges.
Context {St : Type} `{!ILibraryStorage St} `{!Platform}.

Lemma fileExists_one_call (library : ILibraryName) (file : string) (w : World St) :
  log (async (status ← await (call (CFileExists library file)
                                   (libraryStorage.fileExists library file));
              ret (file, status)) w).2
    = (log w ++ [CFileExists library file])%list.
Proof.
  unfold async, mbind, Async_bind, bind, await, call.
  destruct (libraryStorage.fileExists library file (store w)) as [[[b|e]|e] s]; reflexivity.
Qed.

(** X14: [checkFiles] asks the storage about every required file, once and
    in the order of the list, whatever the answers are; a missing or
    failing file does not end the questions. *)
Theorem checkFiles_asks_about_every_file (library : ILibraryName)
    (requiredFiles : list string) (w : World St) :
  log (LibraryManager.checkFiles library requiredFiles w).2
    = (log w ++ (CFileExists library <$> requiredFiles))%list.
Proof.
  unfold LibraryManager.checkFiles.
  unfold mbind at 1, Async_bind at 1, bind at 1.
  match goal with
  | |- context [array_map ?f requiredFiles w] =>
      destruct (array_map_one_call_each f (CFileExists library) requiredFiles w
                  (fileExists_one_call library) (fun x w => async_returns _ w))
        as [Hlog [promises Hpromises]];
      destruct (array_map f requiredFiles w) as [r w1]
  end.
  simpl in Hlog, Hpromises. subst r.
  unfold mbind, Async_bind, bind, settled.
  destruct (Promise_all promises) as [statuses|e]; simpl; [|exact Hlog].
  destruct (0 <? _); exact Hlog.
Qed.

(** X15: for a library the storage reports as not installed the check rejects
    with the not-installed error after that one question; neither metadata
    nor files are looked at. *)
Theorem check_of_uninstalled_library (library : ILibraryName) (w : World St) :
  (libraryStorage.libraryExists library (store w)).1 = Returns (Fulfilled false) ->
  LibraryManager.checkConsistency library w =
    (Rejected (H5pError "library-consistency-check-not-installed"
                 [("name", RText (toUberName library))]),
     mkWorld (effect (CLibraryExists library) (store w))
             (log w ++ [CLibraryExists library])%list).
Proof.
  intros Habsent. unfold LibraryManager.checkConsistency, LibraryManager.libraryExists.
  unfold mbind at 1, Async_bind at 1, bind at 1.
  rewrite await_call_run by reflexivity. rewrite Habsent. reflexivity.
Qed.

(** X16: when the persisted metadata of an installed library cannot be read,
    the check does not pass the failure of the storage on: it rejects with
    the library-json-unreadable error that quotes the message of that
    failure, and it asks about no file. *)
Theorem check_wraps_unreadable_metadata (library : ILibraryName) (w w1 : World St)
    (e : Thrown) :
  LibraryManager.libraryExists library w = (Fulfilled true, w1) ->
  failure (libraryStorage.getLibrary library (store w1)).1 = Some e ->
  LibraryManager.checkConsistency library w =
    (Rejected (H5pError "library-consistency-check-library-json-unreadable"
                 [("message", RText (message e)); ("name", RText (toUberName library))]),
     mkWorld (effect (CGetLibrary library) (store w1))
             (log w1 ++ [CGetLibrary library])%list).
Proof.
  intros Hexists Hfail. unfold LibraryManager.checkConsistency.
  unfold mbind at 1, Async_bind at 1, bind at 1. rewrite Hexists. cbn [negb].
  unfold mbind at 1, Async_bind at 1, bind at 1, tryCatch.
  rewrite (await_call_failure _ _ _ e) by (reflexivity || assumption).
  reflexivity.
Qed.

Lemma filter_absent_nil (present : string -> bool) (files : list string) :
  List.filter (fun file => negb (present file)) files = [] ->
  forall file, file ∈ files -> present file = true.
Proof.
  induction files as [|first rest IH]; intros Hnone file Hin; [inversion Hin|].
  simpl in Hnone. destruct (present first) eqn:Hfirst; [|discriminate].
  apply elem_of_cons in Hin as [->|Hin]; auto.
Qed.

(** X17: a check that fulfils guarantees that every path the persisted
    metadata declares under preloadedJs or preloadedCss is a file the
    storage holds; the value it fulfils with is true. *)
Theorem passed_check_means_files_present (library : ILibraryName)
    (metadata : IInstalledLibrary) (present : string -> bool) (w w1 w2 : World St)
    (answer : bool) :
  LibraryManager.libraryExists library w = (Fulfilled true, w1) ->
  await (call (CGetLibrary library) (libraryStorage.getLibrary library)) w1
    = (Fulfilled metadata, w2) ->
  (forall file, libraryStorage.fileExists library file (store w2)
                = (Returns (Fulfilled (present file)), store w2)) ->
  (LibraryManager.checkConsistency library w).1 = Fulfilled answer ->
  answer = true /\
  forall paths declared,
    preloadedJs metadata = Some paths \/ preloadedCss metadata = Some paths ->
    declared ∈ paths -> present (path declared) = true.
Proof.
  intros Hexists Hmeta Hpresent.
  unfold LibraryManager.checkConsistency.
  unfold mbind at 1, Async_bind at 1, bind at 1. rewrite Hexists. cbn [negb].
  unfold mbind at 1, Async_bind at 1, bind at 1, tryCatch. rewrite Hmeta.
  destruct (preloadedJs metadata) as [js|] eqn:Hdeclared_js.
  - unfold mbind at 1, Async_bind at 1, bind at 1.
    rewrite (checkFiles_run _ present) by assumption.
    destruct (List.filter _ (path <$> js)) eqn:Hnone_js; [|discriminate].
    assert (Hjs : forall declared, declared ∈ js -> present (path declared) = true).
    { intros declared Hin. apply (filter_absent_nil present (path <$> js) Hnone_js).
      apply list_elem_of_fmap. eauto. }
    destruct (preloadedCss metadata) as [css|] eqn:Hdeclared_css.
    + unfold mbind at 1, Async_bind at 1, bind at 1.
      rewrite (checkFiles_run _ present) by assumption.
      destruct (List.filter _ (path <$> css)) eqn:Hnone; [|discriminate].
      intros [= <-]. split; [reflexivity|].
      intros paths declared [[= <-]|[= <-]] Hin; [auto|].
      apply (filter_absent_nil present (path <$> css) Hnone).
      apply list_elem_of_fmap. eauto.
    + intros [= <-]. split; [reflexivity|].
      intros paths declared [[= <-]|Hcss] Hin; [auto | discriminate].
  - unfold mbind at 1, Async_bind at 1, bind at 1, ret at 1.
    destruct (preloadedCss metadata) as [css|] eqn:Hdeclared_css.
    + unfold mbind at 1, Async_bind at 1, bind at 1.
      rewrite (checkFiles_run _ present) by assumption.
      destruct (List.filter _ (path <$> css)) eqn:Hnone; [|discriminate].
      intros [= <-]. split; [reflexivity|].
      intros paths declared [Hjs'|[= <-]] Hin; [discriminate|].
      apply (filter_absent_nil present (path <$> css) Hnone).
      apply list_elem_of_fmap. eauto.
    + intros [= <-]. split; [reflexivity|].
      intros paths declared [Hjs'|Hcss] Hin; discriminate.
Qed.
End ConsistencyEdges.

(** ** Language and semantics files *)

Section Languages.
Context {St : Type} `{!ILibraryStorage St} `{!Platform}.

(** X18: [getLanguage] never rejects, whatever the storage does, and the one
    call it makes is the read of the language file. *)
Theorem getLanguage_never_rejects_one_read (library : ILibraryName) (language : string)
    (w : World St) :
  exists value,
    (LibraryManager.getLanguage library language w).1 = Fulfilled value /\
    log (LibraryManager.getLanguage library language w).2
      = (log w ++ [CGetFileStream library
                     (path_join "language" (language ++ ".json")%string)])%list.
Proof.
  unfold LibraryManager.getLanguage, tryCatch, LibraryManager.getJsonFile.
  unfold mbind, Async_bind, bind, settled.
  rewrite await_call_run by reflexivity.
  destruct (libraryStorage.getFileStream _ _ (store w)).1 as [[stream|e]|e]; simpl; eauto.
  destruct (LibraryManager.streamToString stream) as [text|e]; simpl; eauto.
  destruct (JSON_parse text); simpl; eauto.
Qed.

(** X19: [getLanguage] answers with a value exactly when the storage handed
    out a readable stream for the language file and its text parses to
    that value; in every other case (no such file, a failing stream, text
    that is no JSON) the answer is [null]. *)
Theorem getLanguage_answer_is_parsed_file (library : ILibraryName) (language : string)
    (w : World St) (answer : option JSONValue) :
  (LibraryManager.getLanguage library language w).1 = Fulfilled answer ->
  forall value,
    answer = Some value <->
    exists content,
      (libraryStorage.getFileStream library
         (path_join "language" (language ++ ".json")%string) (store w)).1
        = Returns (Fulfilled (ReadStream content)) /\
      JSON_parse content = Some value.
Proof.
  unfold LibraryManager.getLanguage, tryCatch, LibraryManager.getJsonFile.
  unfold mbind, Async_bind, bind, settled.
  rewrite await_call_run by reflexivity.
  destruct (libraryStorage.getFileStream _ _ (store w)).1 as [[[content|e']|e]|e];
    simpl.
  1: destruct (JSON_parse content) as [parsed|] eqn:Hparse; simpl.
  all: intros [= <-] value; split;
    [ intros Hsome; try discriminate
    | intros (text & Hstream & Htext); try discriminate ].
  - injection Hsome as <-. eauto.
  - injection Hstream as <-. congruence.
  - injection Hstream as <-. congruence.
Qed.

(** X20: [getSemantics] passes every failure on: the failure of the storage
    or of the stream when semantics.json cannot be read, and a SyntaxError
    when its text is no JSON; otherwise it answers with the parsed text. *)
Theorem getSemantics_outcome (library : ILibraryName) (w : World St) :
  (LibraryManager.getSemantics library w).1 =
    match (libraryStorage.getFileStream library "semantics.json" (store w)).1 with
    | Returns (Fulfilled (ReadStream content)) =>
        match JSON_parse content with
        | Some value => Fulfilled value
        | None => Rejected (NativeError "SyntaxError" "Unexpected token in JSON")
        end
    | Returns (Fulfilled (FailingStream e)) => Rejected e
    | Returns (Rejected e) => Rejected e
    | Throws e => Rejected e
    end.
Proof.
  unfold LibraryManager.getSemantics, LibraryManager.getJsonFile.
  unfold mbind, Async_bind, bind, settled.
  rewrite await_call_run by reflexivity.
  destruct (libraryStorage.getFileStream _ _ (store w)).1 as [[[content|e']|e]|e];
    simpl; try reflexivity.
  destruct (JSON_parse content); reflexivity.
Qed.

Lemma existsb_en (languages : list string) :
  existsb (String.eqb "en") languages = true <-> "en" ∈ languages.
Proof.
  rewrite existsb_exists. split.
  - intros (code & Hin & Heq). apply String.eqb_eq in Heq as <-.
    apply list_elem_of_In. assumption.
  - intros Hin. exists "en". split; [apply list_elem_of_In; assumption | reflexivity].
Qed.

(** X21: when the storage lists the languages of a library, [listLanguages]
    answers with that list, followed by the code en unless the list already
    holds it: en is always among the codes, no code of the storage is lost
    or moved, a list that holds en is answered as it is, and a list that
    does not is answered with exactly one en appended at its end. *)
Theorem listLanguages_adds_en_once (library : ILibraryName) (w : World St)
    (installed : list string) :
  (libraryStorage.getLanguages library (store w)).1 = Returns (Fulfilled installed) ->
  exists languages,
    (LibraryManager.listLanguages library w).1 = Fulfilled languages /\
    "en" ∈ languages /\
    installed `prefix_of` languages /\
    (forall code, code ∈ languages <-> code ∈ installed \/ code = "en") /\
    ("en" ∈ installed -> languages = installed) /\
    ("en" ∉ installed -> languages = (installed ++ ["en"])%list).
Proof.
  intros Hinstalled. unfold LibraryManager.listLanguages, tryCatch.
  unfold mbind, Async_bind, bind.
  rewrite await_call_run by reflexivity. rewrite Hinstalled.
  destruct (existsb (String.eqb "en") installed) eqn:Hen; simpl.
  - apply existsb_en in Hen. exists installed.
    split; [reflexivity|]. split; [assumption|]. split; [reflexivity|].
    split; [|split].
    + intros code. split; [auto|]. intros [Hin | ->]; assumption.
    + reflexivity.
    + intros Hout. contradiction.
  - exists (installed ++ ["en"])%list.
    split; [reflexivity|]. split; [|split; [|split; [|split]]].
    + apply elem_of_app. right. left.
    + apply prefix_app_r. reflexivity.
    + intros code. split.
      * intros Hin. apply elem_of_app in Hin as [Hin|Hin]; [auto|].
        apply list_elem_of_singleton in Hin. auto.
      * intros [Hin | ->]; apply elem_of_app; [left; assumption | right; left].
    + intros Hin. apply existsb_en in Hin. congruence.
    + reflexivity.
Qed.

(** X22: when the storage fails to list the languages, [listLanguages] does
    not reject; it answers with the empty list, which does not hold en. *)
Theorem listLanguages_failure_is_empty (library : ILibraryName) (w : World St)
    (e : Thrown) :
  failure (libraryStorage.getLanguages library (store w)).1 = Some e ->
  (LibraryManager.listLanguages library w).1 = Fulfilled [].
Proof.
  intros Hfail. unfold LibraryManager.listLanguages, tryCatch.
  unfold mbind, Async_bind, bind.
  rewrite (await_call_failure _ _ _ e) by (reflexivity || assumption).
  reflexivity.
Qed.
End Languages.

(** ** More runs on the in-memory storage *)

Module MoreRuns.
Import Fixtures.

Lemma MemoryStorage_addFile_returns (library : ILibraryName) (filename : string)
    (stream : Stream) (s : MemoryStorage.State) :
  exists p, (libraryStorage.addFile library filename stream s).1 = Returns p.
Proof.
  simpl. unfold MemoryStorage.guarded.
  destruct (List.find _ (MemoryStorage.faults s)); [simpl; eauto|].
  destruct (MemoryStorage.onSlot _ _ s). simpl. eauto.
Qed.

Lemma listing_reads_each_name_once_witness :
  log (LibraryManager.listInstalledLibraries ["A"] (world installedBoth)).2
    = [CGetInstalledLibraryNames ["A"];
       CGetLibrary (mkLibraryName "A" 2 0); CGetLibrary libA].
Proof.
  apply (listing_reads_each_name_once ["A"] [mkLibraryName "A" 2 0; libA]
           (world installedBoth)).
  reflexivity.
Defined.

Lemma listing_groups_keyed_witness :
  (LibraryManager.listInstalledLibraries ["A"] (world installedBoth)).1
    = Fulfilled {[ "A" := [recordA 1 0 0; recordA 2 0 0] ]} /\
  [recordA 1 0 0; recordA 2 0 0] <> [] /\
  forall lib : IInstalledLibrary,
    lib ∈ [recordA 1 0 0; recordA 2 0 0] -> machineName lib = "A".
Proof.
  split; [vm_compute; reflexivity|].
  apply (listing_groups_keyed ["A"] (world installedBoth)
           {[ "A" := [recordA 1 0 0; recordA 2 0 0] ]} "A" [recordA 1 0 0; recordA 2 0 0]).
  - vm_compute. reflexivity.
  - reflexivity.
Defined.

Lemma listing_groups_sorted_witness :
  (LibraryManager.listInstalledLibraries ["A"] (world installedBoth)).1
    = Fulfilled {[ "A" := [recordA 1 0 0; recordA 2 0 0] ]} /\
  StronglySorted (byComparator compare) [recordA 1 0 0; recordA 2 0 0].
Proof.
  split; [vm_compute; reflexivity|].
  apply (listing_groups_sorted ["A"] (world installedBoth)
           {[ "A" := [recordA 1 0 0; recordA 2 0 0] ]} "A" [recordA 1 0 0; recordA 2 0 0]).
  - exact byVersion_trans.
  - exact byVersion_total.
  - vm_compute. reflexivity.
  - reflexivity.
Defined.

Lemma listing_groups_exact_witness :
  exists wrapped,
    (LibraryManager.listInstalledLibraries ["A"] (world installedBoth)).1
      = Fulfilled wrapped /\
    forall key,
      wrapped !! key =
        match groupOf key
                (sort compare
                   ((fun name => LibraryManager.hydrate name (metadataOf name))
                      <$> [mkLibraryName "A" 2 0; libA]))
        with
        | [] => None
        | group => Some group
        end.
Proof.
  apply (listing_groups_exact ["A"] [mkLibraryName "A" 2 0; libA] metadataOf
           (world installedBoth) installedBoth).
  - reflexivity.
  - intros name Hname.
    apply elem_of_cons in Hname as [->|Hname]; [reflexivity|].
    apply list_elem_of_singleton in Hname as ->. reflexivity.
  - intros name Hname.
    apply elem_of_cons in Hname as [->|Hname]; [reflexivity|].
    apply list_elem_of_singleton in Hname as ->. reflexivity.
Defined.

Lemma listing_fails_on_unreadable_library_witness :
  exists e,
    (LibraryManager.listInstalledLibraries ["A"]
       (world (withFaults [("getLibrary", permissionDenied)] installedBoth))).1
      = Rejected e.
Proof.
  apply (listing_fails_on_unreadable_library ["A"] [mkLibraryName "A" 2 0; libA] libA).
  - exact Runs.MemoryStorage_PureReads.
  - reflexivity.
  - right. left.
  - discriminate.
Defined.

Lemma isPatchedLibrary_answers_older_patch_witness :
  (LibraryManager.isPatchedLibrary (versionA 1 0 5) (world installed100)).1
    = Fulfilled (Some (versionA 1 0 0)) /\
  machineName (versionA 1 0 0) = machineName (versionA 1 0 5) /\
  majorVersion (versionA 1 0 0) = majorVersion (versionA 1 0 5) /\
  minorVersion (versionA 1 0 0) = minorVersion (versionA 1 0 5) /\
  patchVersion (versionA 1 0 0) < patchVersion (versionA 1 0 5).
Proof.
  split; [vm_compute; reflexivity|].
  apply (isPatchedLibrary_answers_older_patch (versionA 1 0 5) (versionA 1 0 0)
           (world installed100)).
  vm_compute. reflexivity.
Defined.

Lemma upgrade_of_installed_line_is_patch_witness :
  (LibraryManager.libraryHasUpgrade (versionA 1 0 5) (world installed100)).1
    = Fulfilled true /\
  exists oldVersion,
    (LibraryManager.isPatchedLibrary (versionA 1 0 5) (world installed100)).1
      = Fulfilled (Some oldVersion).
Proof.
  split; [vm_compute; reflexivity|].
  apply (upgrade_of_installed_line_is_patch (versionA 1 0 5) (world installed100)
           {[ "A" := [recordA 1 0 0] ]} [recordA 1 0 0] (recordA 1 0 0)).
  - vm_compute. reflexivity.
  - reflexivity.
  - left.
  - reflexivity.
  - reflexivity.
  - vm_compute. reflexivity.
Defined.

Lemma failed_addLibrary_is_not_rolled_back_witness :
  let w := world (withFaults [("addLibrary", permissionDenied)] MemoryStorage.empty) in
  LibraryManager.installFromDirectory (completeDirectory "A-1.0.0") false w =
    (Rejected permissionDenied,
     mkWorld (store w)
       [CLibraryExists libA; CAddLibrary (manifest "A" 1 0 0 ["a.js"] ["a.css"]) false]).
Proof.
  cbv zeta.
  rewrite (failed_addLibrary_is_not_rolled_back (completeDirectory "A-1.0.0") false
             (manifest "A" 1 0 0 ["a.js"] ["a.css"])
             (world (withFaults [("addLibrary", permissionDenied)] MemoryStorage.empty))
             (LibraryManager.libraryExists libA
                (world (withFaults [("addLibrary", permissionDenied)]
                          MemoryStorage.empty))).2
             permissionDenied).
  - reflexivity.
  - reflexivity.
  - reflexivity.
  - reflexivity.
Defined.

Lemma install_outcome_versions_witness :
  (LibraryManager.installFromDirectory (completeDirectory "A-1.0.5") false
     (world installed100)).1
    = Fulfilled (ResultPatch (versionA 1 0 5) (versionA 1 0 0)) /\
  exists metadata,
    LibraryManager.readJSON (completeDirectory "A-1.0.5") = Fulfilled metadata /\
    versionA 1 0 5 = versionOf metadata /\
    machineName (versionA 1 0 0) = machineName metadata /\
    majorVersion (versionA 1 0 0) = majorVersion metadata /\
    minorVersion (versionA 1 0 0) = minorVersion metadata /\
    patchVersion (versionA 1 0 0) < patchVersion metadata.
Proof.
  split; [vm_compute; reflexivity|].
  apply (install_outcome_versions (completeDirectory "A-1.0.5") false
           (world installed100) (ResultPatch (versionA 1 0 5) (versionA 1 0 0))).
  vm_compute. reflexivity.
Defined.

Lemma none_outcome_made_no_change_witness :
  let run := LibraryManager.installFromDirectory (completeDirectory "A-1.0.3") false
               (world installed105) in
  run.1 = Fulfilled ResultNone /\
  exists calls,
    log run.2 = (log (world installed105) ++ calls)%list /\
    store run.2 = replay calls (store (world installed105)) /\
    Forall (fun c => mutating c = false) calls.
Proof.
  split; [vm_compute; reflexivity|].
  apply (none_outcome_made_no_change (completeDirectory "A-1.0.3") false
           (world installed105)).
  vm_compute. reflexivity.
Defined.

Lemma copy_reaches_every_selected_entry_witness :
  exists calls,
    log (LibraryManager.copyLibraryFiles directoryWithNestedManifest libA
           (world installed100)).2
      = (log (world installed100) ++ calls)%list /\
    CAddFile libA "vendor/library.json" (ReadStream "{}") ∈ calls.
Proof.
  apply (copy_reaches_every_selected_entry directoryWithNestedManifest libA
           (world installed100) (["vendor"; "library.json"], File "{}")).
  - exact MemoryStorage_addFile_returns.
  - do 3 right. left.
  - reflexivity.
  - discriminate.
Defined.

Lemma check_of_uninstalled_library_witness :
  (LibraryManager.checkConsistency libA (world MemoryStorage.empty)).1
    = Rejected (H5pError "library-consistency-check-not-installed"
                  [("name", RText "A-1.0")]).
Proof.
  rewrite (check_of_uninstalled_library libA (world MemoryStorage.empty)).
  - reflexivity.
  - reflexivity.
Defined.

Lemma check_wraps_unreadable_metadata_witness :
  (LibraryManager.checkConsistency libA
     (world (withFaults [("getLibrary", permissionDenied)] installed100))).1
    = Rejected (H5pError "library-consistency-check-library-json-unreadable"
                  [("message", RText "EACCES: permission denied");
                   ("name", RText "A-1.0")]).
Proof.
  rewrite (check_wraps_unreadable_metadata libA
             (world (withFaults [("getLibrary", permissionDenied)] installed100))
             (LibraryManager.libraryExists libA
                (world (withFaults [("getLibrary", permissionDenied)] installed100))).2
             permissionDenied).
  - reflexivity.
  - reflexivity.
  - reflexivity.
Defined.

Lemma passed_check_means_files_present_witness :
  (LibraryManager.checkConsistency libA (world installed100)).1 = Fulfilled true /\
  true = true /\
  forall paths declared,
    preloadedJs (mkInstalled (manifest "A" 1 0 0 ["a.js"] ["a.css"]) false) = Some paths \/
    preloadedCss (mkInstalled (manifest "A" 1 0 0 ["a.js"] ["a.css"]) false) = Some paths ->
    declared ∈ paths -> holdsBothFiles (path declared) = true.
Proof.
  split; [vm_compute; reflexivity|].
  apply (passed_check_means_files_present libA
           (mkInstalled (manifest "A" 1 0 0 ["a.js"] ["a.css"]) false)
           holdsBothFiles (world installed100)
           (LibraryManager.libraryExists libA (world installed100)).2
           (await (call (CGetLibrary libA) (libraryStorage.getLibrary libA))
              (LibraryManager.libraryExists libA (world installed100)).2).2
           true).
  - reflexivity.
  - reflexivity.
  - intros file. reflexivity.
  - vm_compute. reflexivity.
Defined.

Lemma getLanguage_answer_is_parsed_file_witness :
  (LibraryManager.getLanguage libA "de" (world withLanguages)).1
    = Fulfilled (@Some (@JSONValue platform) "{}") /\
  forall value : JSONValue,
    @Some (@JSONValue platform) "{}" = Some value <->
    exists content,
      (libraryStorage.getFileStream libA (path_join "language" "de.json")
         (store (world withLanguages))).1
        = Returns (Fulfilled (ReadStream content)) /\
      JSON_parse content = Some value.
Proof.
  split; [reflexivity|].
  apply (getLanguage_answer_is_parsed_file libA "de" (world withLanguages)
           (@Some (@JSONValue platform) "{}")).
  reflexivity.
Defined.

(** The French file of [withLanguages] holds no JSON: the answer is null. *)
(** With a library named constructor installed the listing rejects, and
    asked about the name toString, of which nothing is installed, neither
    [libraryHasUpgrade] nor [isPatchedLibrary] answers. *)
Example listing_of_inherited_name_rejects :
  (LibraryManager.listInstalledLibraries [] (world slotNamedConstructor)).1
    = Rejected (NativeError "TypeError"
                  "returnObject[library.machineName].push is not a function").
Proof. vm_compute. reflexivity. Qed.

Example libraryHasUpgrade_of_inherited_name_rejects :
  (LibraryManager.libraryHasUpgrade
     (mkFullLibraryName (mkLibraryName "toString" 1 0) 0) (world installed100)).1
    = Rejected (NativeError "TypeError"
                  "wrappedLibraryInfos[library.machineName].sort is not a function").
Proof. vm_compute. reflexivity. Qed.

Example isPatchedLibrary_of_inherited_name_rejects :
  (LibraryManager.isPatchedLibrary
     (mkFullLibraryName (mkLibraryName "toString" 1 0) 0) (world installed100)).1
    = Rejected (NativeError "TypeError" "libraryInfos is not iterable").
Proof. vm_compute. reflexivity. Qed.

Example getLanguage_malformed_is_null :
  (LibraryManager.getLanguage libA "fr" (world withLanguages)).1 = Fulfilled None.
Proof. reflexivity. Qed.

Lemma listLanguages_adds_en_once_witness :
  exists languages,
    (LibraryManager.listLanguages libA (world withLanguages)).1 = Fulfilled languages /\
    "en" ∈ languages /\
    ["de"; "fr"] `prefix_of` languages /\
    (forall code, code ∈ languages <-> code ∈ ["de"; "fr"] \/ code = "en") /\
    ("en" ∈ ["de"; "fr"] -> languages = ["de"; "fr"]) /\
    ("en" ∉ ["de"; "fr"] -> languages = ["de"; "fr"; "en"]).
Proof.
  apply (listLanguages_adds_en_once libA (world withLanguages) ["de"; "fr"]).
  vm_compute. reflexivity.
Defined.

Lemma listLanguages_failure_is_empty_witness :
  (LibraryManager.listLanguages libA (world MemoryStorage.empty)).1 = Fulfilled [].
Proof.
  apply (listLanguages_failure_is_empty libA (world MemoryStorage.empty)
           MemoryStorage.notInstalled).
  reflexivity.
Defined.
End MoreRuns.
